(** * The gear/pin custom collision callback of the M113 track vehicle

    A shallow embedding of
    [src/demos/trackVehicle/subsys/collision/TrackCollisionCallback.h]:
    the geometry container [GearPinGeometry] and the class template
    [GearPinCollisionCallback], followed by the properties of the code.

    Conventions.
    - [double] is IEEE 754 binary64, Rocq's primitive [float]; arithmetic,
      comparisons and [sqrt] are the kernel's.
    - [int] is a 32-bit two's complement integer and [size_t] a 64-bit
      unsigned one, both carried by [Z] with the conversions written out.
      The contact counter wraps at INT_MAX; where the loop counter of the
      constructor would overflow the behaviour is undefined.
    - [assert] is compiled in (no NDEBUG): a failed assertion aborts.
    - What the header takes from elsewhere (libm, the Chrono core classes,
      the contact engine) is either an operation of the class [Externals]
      or a definition marked as modelled from the specification. *)

From Stdlib Require Import ZArith Lia Floats.
From stdpp Require Import base option list gmap.

Set Warnings "-inexact-float".

(** ** Outcomes of a call *)

(** A call returns, aborts on a failed [assert], throws a C++ exception,
    or has undefined behaviour. *)
Inductive outcome (A : Type) : Type :=
| Returns (a : A)
| AssertionFailed
| Throws_length_error
| Throws_bad_alloc
| Undefined.

Arguments Returns {A} a.
Arguments AssertionFailed {A}.
Arguments Throws_length_error {A}.
Arguments Throws_bad_alloc {A}.
Arguments Undefined {A}.

#[global] Instance outcome_ret : MRet outcome := fun A a => Returns a.

#[global] Instance outcome_bind : MBind outcome := fun A B k o =>
  match o with
  | Returns a => k a
  | AssertionFailed => AssertionFailed
  | Throws_length_error => Throws_length_error
  | Throws_bad_alloc => Throws_bad_alloc
  | Undefined => Undefined
  end.

(** Sequencing where the continuation may exhaust an iteration budget
    ([None]): what does not return is passed on. *)
Definition and_then {A B : Type} (o : outcome A) (k : A -> option (outcome B))
    : option (outcome B) :=
  match o with
  | Returns a => k a
  | AssertionFailed => Some AssertionFailed
  | Throws_length_error => Some Throws_length_error
  | Throws_bad_alloc => Some Throws_bad_alloc
  | Undefined => Some Undefined
  end.

(** [assert(c)] of <cassert>. *)
Definition assert (c : bool) : outcome unit :=
  if c then Returns tt else AssertionFailed.

(** ** Machine integers *)

Definition INT_MAX : Z := 2147483647.
Definition INT_MIN : Z := -2147483648.

(** The value an [int] holds after an arithmetic result [v]. *)
Definition wrap_int (v : Z) : Z := ((v + 2147483648) mod 4294967296 - 2147483648)%Z.

(** Conversion of an integer value to [size_t]. *)
Definition to_size_t (v : Z) : Z := (v mod 18446744073709551616)%Z.

(** ** The part of the Chrono core the header relies on *)

(** Modelled from the spec: [ChVector<double>] of core/ChVector.h, which
    is not among the sources: a triple of doubles with component-wise sum
    and difference, and the Euclidean length the specification writes
    [|v|]. *)
Record ChVector : Type := mkChVector { vx : float; vy : float; vz : float }.

Definition ChVector_zero : ChVector := mkChVector 0 0 0.

Definition ChVector_add (a b : ChVector) : ChVector :=
  mkChVector (vx a + vx b) (vy a + vy b) (vz a + vz b).

Definition ChVector_sub (a b : ChVector) : ChVector :=
  mkChVector (vx a - vx b) (vy a - vy b) (vz a - vz b).

Definition Length (a : ChVector) : float :=
  sqrt (vx a * vx a + vy a * vy a + vz a * vz a).

(** A rotation quaternion of core/ChQuaternion.h; only its components are
    fixed here, what [Rotate] computes is left to [Externals]. *)
Record ChQuaternion : Type := mkChQuaternion { e0 : float; e1 : float; e2 : float; e3 : float }.

(** The allocations of the constructor of the callback whose size is an
    input: the two vectors of seat endpoints, of as many elements as
    there are teeth, the table, of the dimension asked for, and the two
    tracker vectors, of as many elements as there are shoes. *)
Inductive allocation : Type :=
| for_seat1_bar (num_teeth : Z)
| for_seat2_bar (num_teeth : Z)
| for_hashed_contacts (persistent_hashtable_dim : Z)
| for_persistentContactSteps (num_shoes : nat)
| for_contactPrevStep (num_shoes : nat).

(** What the header calls but does not define: [sin], [cos] and [pow] of
    <cmath>, [ChQuaternion::Rotate], and the allocator, which grants an
    allocation or fails it with [std::bad_alloc]. *)
Class Externals : Type := {
  std_sin : float -> float;
  std_cos : float -> float;
  std_pow : float -> float -> float;
  Rotate : ChQuaternion -> ChVector -> ChVector;
  operator_new : allocation -> bool
}.

(** ** GearPinGeometry (lines 29-88) *)

Record GearPinGeometry : Type := mkGearPinGeometry {
  m_gear_base_radius : float;
  m_gear_pitch_radius : float;
  m_gear_tooth_radius : float;
  m_gear_seat_width_max : float;
  m_gear_seat_width_min : float;
  m_num_teeth : Z;
  m_key_angle : float;
  m_tooth_mid_bar : ChVector;
  m_tooth_len : float;
  m_tooth_width : float;
  m_pin_radius : float;
  m_pin_width_max : float;
  m_pin_width_min : float;
  m_pin_x_offset : float;
  m_pin_y_offset : float
}.

(** The constructor: the member initialisers of lines 46-60, then the
    three assertions of lines 63-65 in order. The parameter [num_teeth]
    is a [size_t]: the value of the argument is converted at the call. *)
Definition GearPinGeometry_new
    (gear_base_radius gear_pitch_radius gear_seat_width_max gear_seat_width_min : float)
    (tooth_mid_bar : ChVector) (tooth_len tooth_width : float) (num_teeth : Z)
    (key_angle pin_radius pin_width_max pin_width_min pin_x_offset pin_y_offset : float)
    : outcome GearPinGeometry :=
  let this := {|
    m_gear_base_radius := gear_base_radius;
    m_gear_pitch_radius := gear_pitch_radius;
    m_gear_tooth_radius := (gear_pitch_radius - gear_base_radius)%float;
    m_gear_seat_width_max := gear_seat_width_max;
    m_gear_seat_width_min := gear_seat_width_min;
    m_num_teeth := to_size_t num_teeth;
    m_key_angle := key_angle;
    m_tooth_mid_bar := tooth_mid_bar;
    m_tooth_len := tooth_len;
    m_tooth_width := tooth_width;
    m_pin_radius := pin_radius;
    m_pin_width_max := pin_width_max;
    m_pin_width_min := pin_width_min;
    m_pin_x_offset := pin_x_offset;
    m_pin_y_offset := pin_y_offset
  |} in
  _ ← assert (0 <? m_gear_seat_width_max this - m_gear_seat_width_min this)%float;
  _ ← assert (0 <? m_pin_width_max this - m_pin_width_min this)%float;
  _ ← assert (0 <? m_gear_pitch_radius this - m_gear_base_radius this)%float;
  Returns this.

(** The object built from the default arguments of lines 32-45. *)
Definition GearPinGeometry_default : outcome GearPinGeometry :=
  GearPinGeometry_new 0.211 0.267 0.626 0.458
    (mkChVector 0.079815 0.24719 0.2712) 0.013119 0.0840 10
    0.0 0.0232 0.531 0.38 (-0.07581) 0.

(** ** Bodies, contacts and the system around the callback *)

(** What the callback reads of a [ChBody]: its position, its rotation and
    the handle of its collision model. *)
Record ChBody : Type := mkChBody {
  GetPos : ChVector;
  GetRot : ChQuaternion;
  GetCollisionModel : Z
}.

(** Where a [float*] handed to the contact engine points: into the
    [reactions_cache] vector of the table entry of a shoe, or into an
    automatic [std::vector<float>] living in a slot of the call stack. *)
Inductive float_ptr : Type :=
| ptr_entry (shoeID : Z)
| ptr_auto (slot : nat).

(** [collision::ChCollisionInfo] as lines 180-187 fill it. *)
Record ChCollisionInfo : Type := mkChCollisionInfo {
  modelA : Z;
  modelB : Z;
  vN : ChVector;
  vpA : ChVector;
  vpB : ChVector;
  distance : float;
  reaction_cache : float_ptr
}.

(** Modelled from the spec: the external collaborators of section 6. The
    callback holds references to the caller's vector of shoes and to the
    gear body ([m_shoes], [m_gear]); the contact container is a sink that
    accepts contact records, kept here as the list of the records passed
    to [AddContact], oldest first. *)
Record ChSystem : Type := mkChSystem {
  shoes : list ChBody;
  gear : ChBody;
  contacts : list ChCollisionInfo
}.

Definition AddContact (mcont : ChCollisionInfo) (sys : ChSystem) : ChSystem :=
  mkChSystem (shoes sys) (gear sys) (contacts sys ++ [mcont]).

(** ** GearPinCacheContact (lines 153-159) *)

Record GearPinCacheContact : Type := mkGearPinCacheContact {
  reactions_cache : list float
}.

(** The constructor: [reactions_cache.resize(6,0)] on an empty vector. *)
Definition GearPinCacheContact_new : GearPinCacheContact :=
  mkGearPinCacheContact (resize 6 0%float []).

(** ** GearPinCollisionCallback (lines 95-288) *)

(** The data members of the object. [m_shoes] and [m_gear] are references
    into the [ChSystem]; [hashed_contacts] is the table the object owns.
    Modelled from the spec: [ChHashTable<int, GearPinCacheContact>] of
    core/ChHashTable.h, which is not among the sources, is an associative
    store from shoe identifiers to records with at most one entry per
    identifier, a finite map. The specification fixes the capacity of
    the store at construction, [persistent_hashtable_dim], and leaves
    open what an insertion into a full store does: the map stands for
    the table while it holds no more records than that, and what is said
    of insertions is said of a table with room. *)
Record GearPinCollisionCallback : Type := mkGearPinCollisionCallback {
  m_p1_bar : ChVector;
  m_p2_bar : ChVector;
  m_seat1_bar : list ChVector;
  m_seat2_bar : list ChVector;
  m_geom : GearPinGeometry;
  m_contactPrevStep : list bool;
  m_persistentContactSteps : list Z;
  m_Ncontacts : Z;
  m_persistent_hashtable_dim : Z;
  hashed_contacts : gmap Z GearPinCacheContact
}.

(** [max_size()] of [std::vector<ChVector<double> >], 24-byte elements,
    with libstdc++ on LP64: PTRDIFF_MAX / 24. *)
Definition ChVector_vector_max_size : Z := 384307168202282325.

Section Callback.

Context `{E : Externals}.

(** [v.resize(n)] for such a vector. The size is a [size_t], the value
    given is converted at the call; beyond [max_size()] the call throws
    [std::length_error]; where the vector has to grow the allocator is
    asked and its failure is [std::bad_alloc]; otherwise the vector is
    truncated or padded with [ChVector()]. *)
Definition ChVector_vector_resize (request : allocation) (n : Z) (v : list ChVector)
    : outcome (list ChVector) :=
  let size := to_size_t n in
  if (ChVector_vector_max_size <? size)%Z then Throws_length_error
  else if (size <=? Z.of_nat (length v))%Z || operator_new request
       then Returns (resize (Z.to_nat size) ChVector_zero v)
       else Throws_bad_alloc.

(** [v.resize(n, x)] for an empty tracker vector and the size [n] of the
    caller's vector of shoes, which is below the [max_size()] of either
    tracker vector: nothing to allocate for no shoe, else the allocator
    is asked. *)
Definition tracker_resize {A : Type} (request : allocation) (n : nat) (x : A)
    : outcome (list A) :=
  if (n =? 0) || operator_new request then Returns (resize n x []) else Throws_bad_alloc.

(** [new ChHashTable<int, GearPinCacheContact>(persistent_hashtable_dim)]
    of line 139: an empty table, or [std::bad_alloc]. *)
Definition new_ChHashTable (persistent_hashtable_dim : Z)
    : outcome (gmap Z GearPinCacheContact) :=
  if operator_new (for_hashed_contacts persistent_hashtable_dim) then Returns ∅
  else Throws_bad_alloc.

(** The seat endpoints lines 130-135 assign at every tooth index. *)
Definition seat1_endpoint (g : GearPinGeometry) : ChVector :=
  mkChVector (m_gear_base_radius g * std_sin (m_key_angle g))
             (m_gear_base_radius g * std_cos (m_key_angle g))
             (m_gear_seat_width_min g / 2.0).

Definition seat2_endpoint (g : GearPinGeometry) : ChVector :=
  mkChVector (m_gear_base_radius g * std_sin (m_key_angle g))
             (m_gear_base_radius g * std_cos (m_key_angle g))
             (m_gear_seat_width_max g / 2.0).

(** The loop of lines 128-136. [t_idx] is an [int]; the test compares it
    with the [size_t] tooth count after the usual conversion and the
    subscript converts it the same way. [t_idx++] at INT_MAX is a signed
    overflow: the behaviour is undefined, and builds differ in what the
    loop does from there. [None]: the iteration budget [fuel] is used
    up. *)
Fixpoint seat_loop (g : GearPinGeometry) (fuel : nat) (t_idx : Z)
    (seat1 seat2 : list ChVector) : option (outcome (list ChVector * list ChVector)) :=
  match fuel with
  | O => None
  | S fuel' =>
      if (to_size_t t_idx <? m_num_teeth g)%Z then
        let seat1' := <[Z.to_nat (to_size_t t_idx) := seat1_endpoint g]> seat1 in
        let seat2' := <[Z.to_nat (to_size_t t_idx) := seat2_endpoint g]> seat2 in
        if (t_idx <? INT_MAX)%Z then seat_loop g fuel' (t_idx + 1) seat1' seat2'
        else Some Undefined
      else Some (Returns (seat1, seat2))
  end.

(** The constructor, lines 100-144. [sys] is the system the references
    [shoes] and [gear_body] point into. The option layer is the budget of
    [seat_loop], one test more than there are teeth. *)
Definition GearPinCollisionCallback_new (sys : ChSystem) (geom : GearPinGeometry)
    (persistent_hashtable_dim : Z) : option (outcome GearPinCollisionCallback) :=
  let p1 := mkChVector (m_pin_x_offset geom) (m_pin_y_offset geom) (m_pin_width_min geom / 2.0) in
  let p2 := mkChVector (m_pin_x_offset geom) (m_pin_y_offset geom) (m_pin_width_max geom / 2.0) in
  let num_teeth := m_num_teeth geom in
  let num_shoes := length (shoes sys) in
  and_then (ChVector_vector_resize (for_seat1_bar num_teeth) num_teeth []) (fun seat1 =>
  and_then (ChVector_vector_resize (for_seat2_bar num_teeth) num_teeth []) (fun seat2 =>
  looped ← seat_loop geom (S (Z.to_nat num_teeth)) 0 seat1 seat2;
  Some ('(seat1', seat2') ← looped;
        mhash ← new_ChHashTable persistent_hashtable_dim;
        counts ← tracker_resize (for_persistentContactSteps num_shoes) num_shoes 0%Z;
        flags ← tracker_resize (for_contactPrevStep num_shoes) num_shoes false;
        Returns {|
          m_p1_bar := p1;
          m_p2_bar := p2;
          m_seat1_bar := seat1';
          m_seat2_bar := seat2';
          m_geom := geom;
          m_contactPrevStep := flags;
          m_persistentContactSteps := counts;
          m_Ncontacts := 0;
          m_persistent_hashtable_dim := to_size_t persistent_hashtable_dim;
          hashed_contacts := mhash
        |}))).

End Callback.

(** ** The running program *)

(** The callback object, the system it refers into and the automatic
    [std::vector<float>] objects alive on the call stack, bottom first. *)
Record Program : Type := mkProgram {
  this : GearPinCollisionCallback;
  system : ChSystem;
  stack : list (list float)
}.

Definition set_hashed_contacts (mhash : gmap Z GearPinCacheContact)
    (cb : GearPinCollisionCallback) : GearPinCollisionCallback :=
  mkGearPinCollisionCallback (m_p1_bar cb) (m_p2_bar cb) (m_seat1_bar cb) (m_seat2_bar cb)
    (m_geom cb) (m_contactPrevStep cb) (m_persistentContactSteps cb) (m_Ncontacts cb)
    (m_persistent_hashtable_dim cb) mhash.

Definition set_Ncontacts (n : Z) (cb : GearPinCollisionCallback) : GearPinCollisionCallback :=
  mkGearPinCollisionCallback (m_p1_bar cb) (m_p2_bar cb) (m_seat1_bar cb) (m_seat2_bar cb)
    (m_geom cb) (m_contactPrevStep cb) (m_persistentContactSteps cb) n
    (m_persistent_hashtable_dim cb) (hashed_contacts cb).

(** Reading the six floats behind a pointer: [None] when it points to no
    live object. *)
Definition load (p : Program) (ptr : float_ptr) : option (list float) :=
  match ptr with
  | ptr_entry shoeID => reactions_cache <$> hashed_contacts (this p) !! shoeID
  | ptr_auto slot => stack p !! slot
  end.

(** Writing reactions through a pointer, as the solver does with the
    [reaction_cache] of a contact: [Undefined] when it points to no live
    object. *)
Definition store (ptr : float_ptr) (v : list float) (p : Program) : outcome Program :=
  match ptr with
  | ptr_entry shoeID =>
      match hashed_contacts (this p) !! shoeID with
      | Some _ =>
          Returns (mkProgram
            (set_hashed_contacts (<[shoeID := mkGearPinCacheContact v]> (hashed_contacts (this p))) (this p))
            (system p) (stack p))
      | None => Undefined
      end
  | ptr_auto slot =>
      match stack p !! slot with
      | Some _ => Returns (mkProgram (this p) (system p) (<[slot := v]> (stack p)))
      | None => Undefined
      end
  end.

(** Lines 173-177: find the entry of [shoeID], insert a default
    constructed one when there is none; the record found or inserted. *)
Definition get_or_create (shoeID : Z) (mhash : gmap Z GearPinCacheContact)
    : gmap Z GearPinCacheContact * GearPinCacheContact :=
  match mhash !! shoeID with
  | None => (<[shoeID := GearPinCacheContact_new]> mhash, GearPinCacheContact_new)
  | Some mcached => (mhash, mcached)
  end.

(** Lines 164-192, called with [mhash] the table of the object. The
    automatic vector [mreaction_cache] takes the next stack slot, is
    assigned a copy of the record's vector, has its buffer's address put
    in the contact, and is destroyed when the function returns. *)
Definition Found_GearPin_Contact (gear_body shoe : ChBody) (shoeID : Z)
    (pa pb vn : ChVector) (mdist : float) (p : Program) : Program :=
  let slot := length (stack p) in
  let '(mhash, record) := get_or_create shoeID (hashed_contacts (this p)) in
  let mreaction_cache := reactions_cache record in
  let mcont := {|
    modelA := GetCollisionModel gear_body;
    modelB := GetCollisionModel shoe;
    vN := vn;
    vpA := pa;
    vpB := pb;
    distance := mdist;
    reaction_cache := ptr_auto slot
  |} in
  let inside := mkProgram
    (set_Ncontacts (wrap_int (m_Ncontacts (this p) + 1)) (set_hashed_contacts mhash (this p)))
    (AddContact mcont (system p))
    (stack p ++ [mreaction_cache]) in
  mkProgram (this inside) (system inside) (take slot (stack inside)).

(** What the contact engine can read behind the pointer of the contact
    while [AddContact] runs, the automatic vector still alive. *)
Definition reactions_at_AddContact (shoeID : Z) (p : Program) : list float :=
  reactions_cache (get_or_create shoeID (hashed_contacts (this p))).2.

Section Driver.

Context `{E : Externals}.

(** Lines 216-225: the two bounding radii, the centre of the shoe's
    bounding sphere and the test that guards the narrow phase. *)
Definition bound_rad_Gear (g : GearPinGeometry) : float :=
  sqrt (std_pow (Length (m_tooth_mid_bar g)) 2 + std_pow (m_tooth_len g * 0.5) 2).

Definition bound_rad_Shoe (g : GearPinGeometry) : float :=
  Length (mkChVector (m_pin_x_offset g + m_pin_radius g) (m_pin_y_offset g)
                     (m_pin_width_max g / 2.0)).

Definition pin_pos (g : GearPinGeometry) (shoe : ChBody) : ChVector :=
  ChVector_add (GetPos shoe) (Rotate (GetRot shoe) (mkChVector (- m_pin_x_offset g) 0 0)).

Definition center_distance (g : GearPinGeometry) (gear_body shoe : ChBody) : float :=
  Length (ChVector_sub (GetPos gear_body) (pin_pos g shoe)).

Definition broad_phase (g : GearPinGeometry) (gear_body shoe : ChBody) : bool :=
  (center_distance g gear_body shoe <=? bound_rad_Gear g + bound_rad_Shoe g)%float.

(** Lines 226-249, the arm taken when the broad phase passes: it holds
    comments only. *)
Definition narrow_phase (idx : nat) (p : Program) : Program := p.

(** One iteration of the loop of lines 208-255, for the shoe at [idx],
    with the arm of a passing broad phase as a parameter. *)
Definition shoe_iteration_with (arm : nat -> Program -> Program)
    (p : Program) (idx : nat) : Program :=
  match shoes (system p) !! idx with
  | Some shoe =>
      if broad_phase (m_geom (this p)) (gear (system p)) shoe
      then arm idx p
      else p
  | None => p
  end.

(** The iteration as the header has it. *)
Definition shoe_iteration (p : Program) (idx : nat) : Program :=
  shoe_iteration_with narrow_phase p idx.

(** Lines 202-256: [idx] runs over the indices of [m_shoes]. *)
Definition CollisionGearPinFamily (p : Program) : Program :=
  foldl shoe_iteration p (seq 0 (length (shoes (system p)))).

(** Lines 195-199, the callback of every time step. *)
Definition PerformCustomCollision (p : Program) : Program :=
  CollisionGearPinFamily p.

End Driver.

(** Line 258: the assertion tests the index against the caller's vector
    of shoes, the subscript reads the object's own vector of flags. *)
Definition Get_contactPrevStep (p : Program) (idx : nat) : outcome bool :=
  _ ← assert (idx <? length (shoes (system p)));
  match m_contactPrevStep (this p) !! idx with
  | Some flag => Returns flag
  | None => Undefined
  end.

(** Line 263. *)
Definition GetNcontacts_GearPin (p : Program) : Z := m_Ncontacts (this p).

(** ** Runs *)

(** What happens to a program between its start and now: the system calls
    the callback for a time step, some caller reports a contact, or the
    rest of the simulation changes the system (bodies move, shoes are
    added or removed, the contact container is emptied). The two queries
    are functions of the program and change nothing. *)
Inductive event : Type :=
| step
| found (gear_body shoe : ChBody) (shoeID : Z) (pa pb vn : ChVector) (mdist : float)
| environment (sys : ChSystem).

Definition is_found (ev : event) : bool :=
  match ev with found _ _ _ _ _ _ _ => true | _ => false end.

Definition exec `{E : Externals} (p : Program) (ev : event) : Program :=
  match ev with
  | step => PerformCustomCollision p
  | found g s shoeID pa pb vn mdist => Found_GearPin_Contact g s shoeID pa pb vn mdist p
  | environment sys => mkProgram (this p) sys (stack p)
  end.

Definition run `{E : Externals} (p : Program) (evs : list event) : Program :=
  foldl exec p evs.

(** The program right after the construction of the callback. *)
Definition start `{E : Externals} (sys : ChSystem) (geom : GearPinGeometry)
    (persistent_hashtable_dim : Z) : option (outcome Program) :=
  o ← GearPinCollisionCallback_new sys geom persistent_hashtable_dim;
  Some (cb ← o; Returns (mkProgram cb sys [])).

(** ** What the specification says of the broad phase *)

(** The pin-cylinder centre in world space as the specification has it:
    the pin offset of the shoe frame, rotated by the shoe's rotation and
    translated by its position. The pin endpoints [m_p1_bar], [m_p2_bar]
    lie at [(pin_x_offset, pin_y_offset, ±width/2)], their centre at
    [(pin_x_offset, pin_y_offset, 0)]. *)
Definition pin_center_spec `{E : Externals} (g : GearPinGeometry) (shoe : ChBody) : ChVector :=
  ChVector_add (GetPos shoe)
    (Rotate (GetRot shoe) (mkChVector (m_pin_x_offset g) (m_pin_y_offset g) 0)).

Definition broad_phase_spec `{E : Externals} (g : GearPinGeometry) (gear_body shoe : ChBody) : bool :=
  (Length (ChVector_sub (GetPos gear_body) (pin_center_spec g shoe))
     <=? bound_rad_Gear g + bound_rad_Shoe g)%float.

(** ** Concrete inputs *)

(** Modelled from the spec: the rotation of a vector by a shoe's
    rotation, [ChQuaternion::Rotate] of core/ChQuaternion.h, which is not
    among the sources: the rotation matrix of the quaternion applied to
    the vector. *)
Definition ChQuaternion_Rotate (q : ChQuaternion) (A : ChVector) : ChVector :=
  let e0e0 := (e0 q * e0 q)%float in
  let e1e1 := (e1 q * e1 q)%float in
  let e2e2 := (e2 q * e2 q)%float in
  let e3e3 := (e3 q * e3 q)%float in
  let e0e1 := (e0 q * e1 q)%float in
  let e0e2 := (e0 q * e2 q)%float in
  let e0e3 := (e0 q * e3 q)%float in
  let e1e2 := (e1 q * e2 q)%float in
  let e1e3 := (e1 q * e3 q)%float in
  let e2e3 := (e2 q * e3 q)%float in
  mkChVector
    (((e0e0 + e1e1) * 2 - 1) * vx A + ((e1e2 - e0e3) * 2) * vy A + ((e1e3 + e0e2) * 2) * vz A)
    (((e1e2 + e0e3) * 2) * vx A + ((e0e0 + e2e2) * 2 - 1) * vy A + ((e2e3 - e0e1) * 2) * vz A)
    (((e1e3 - e0e2) * 2) * vx A + ((e2e3 + e0e1) * 2) * vy A + ((e0e0 + e3e3) * 2 - 1) * vz A).

(** The externals the examples are evaluated with. The header gives
    [pow] the exponent 2 only, where it is the square; the examples give
    [sin] and [cos] the angle 0 only, where they are exactly 0 and 1.
    Elsewhere the three answer NaN. Memory is not short: every
    allocation is granted. *)
Definition example_externals : Externals := {|
  std_sin := fun a => if (a =? 0)%float then a else nan;
  std_cos := fun a => if (a =? 0)%float then 1%float else nan;
  std_pow := fun a b => if (b =? 2)%float then (a * a)%float else nan;
  Rotate := ChQuaternion_Rotate;
  operator_new := fun _ => true
|}.

Definition QUNIT : ChQuaternion := mkChQuaternion 1 0 0 0.

(** The geometry of the default arguments. *)
Definition default_geometry : GearPinGeometry := {|
  m_gear_base_radius := 0.211;
  m_gear_pitch_radius := 0.267;
  m_gear_tooth_radius := (0.267 - 0.211)%float;
  m_gear_seat_width_max := 0.626;
  m_gear_seat_width_min := 0.458;
  m_num_teeth := 10;
  m_key_angle := 0.0;
  m_tooth_mid_bar := mkChVector 0.079815 0.24719 0.2712;
  m_tooth_len := 0.013119;
  m_tooth_width := 0.0840;
  m_pin_radius := 0.0232;
  m_pin_width_max := 0.531;
  m_pin_width_min := 0.38;
  m_pin_x_offset := (-0.07581);
  m_pin_y_offset := 0
|}.

(** The gear at the origin of the world, not rotated. *)
Definition gear_at_origin : ChBody := mkChBody ChVector_zero QUNIT 1.

(** A shoe that is not rotated, with collision model [2], at a position. *)
Definition shoe_at (x y z : float) : ChBody := mkChBody (mkChVector x y z) QUNIT 2.

(** A system of the gear at the origin and the given shoes, its contact
    container empty. *)
Definition example_system (shoe_list : list ChBody) : ChSystem :=
  mkChSystem shoe_list gear_at_origin [].

(** The callback the constructor builds from the default geometry for a
    system of [n_shoes] shoes. *)
Definition example_callback (n_shoes : nat) : GearPinCollisionCallback := {|
  m_p1_bar := mkChVector (-0.07581) 0 (0.38 / 2.0);
  m_p2_bar := mkChVector (-0.07581) 0 (0.531 / 2.0);
  m_seat1_bar := replicate 10 (mkChVector (0.211 * 0.0) (0.211 * 1) (0.458 / 2.0));
  m_seat2_bar := replicate 10 (mkChVector (0.211 * 0.0) (0.211 * 1) (0.626 / 2.0));
  m_geom := default_geometry;
  m_contactPrevStep := replicate n_shoes false;
  m_persistentContactSteps := replicate n_shoes 0%Z;
  m_Ncontacts := 0;
  m_persistent_hashtable_dim := 1000;
  hashed_contacts := ∅
|}.

Definition example_program (shoe_list : list ChBody) : Program :=
  mkProgram (example_callback (length shoe_list)) (example_system shoe_list) [].

(** A shoe ten metres from the gear. *)
Definition far_shoe : ChBody := shoe_at 10 0 0.

(** A shoe whose pin axis, at [(pin_x_offset, pin_y_offset)] of the shoe
    frame, runs parallel to the seat axis through [(0, 0.211)] at the
    distance [pin_radius + gear_tooth_radius] above it. *)
Definition seated_shoe : ChBody :=
  shoe_at 0.07581 (0.211 + (0.0232 + (0.267 - 0.211))) 0.

(** A contact report for the shoe of identifier [shoeID]. *)
Definition example_found (shoeID : Z) : event :=
  found gear_at_origin seated_shoe shoeID ChVector_zero ChVector_zero ChVector_zero 0.

(** The number of contact reports among events. *)
Definition count_found (evs : list event) : Z :=
  Z.of_nat (length (filter (fun ev => is_found ev = true) evs)).

(** An event that leaves the caller's vector of shoes with [n] elements:
    a change of the system that adds or removes none, a time step, a
    contact report. *)
Definition keeps_shoe_count (n : nat) (ev : event) : Prop :=
  match ev with
  | environment sys => length (shoes sys) = n
  | _ => True
  end.

(** Every record of a table in which nothing but default constructed
    records were inserted holds six zeros. *)
Definition all_zero (mhash : gmap Z GearPinCacheContact) : Prop :=
  forall shoeID record, mhash !! shoeID = Some record -> record = GearPinCacheContact_new.

(** The shoe identifier a contact report is for. *)
Definition reported_shoe (ev : event) : option Z :=
  match ev with
  | found _ _ shoeID _ _ _ _ => Some shoeID
  | _ => None
  end.

(** The identifiers events report contacts for, in the order of the
    reports. *)
Definition reported_shoes (evs : list event) : list Z := omap reported_shoe evs.

(** The record lines 180-187 fill for a contact report made while the
    stack holds [slot] automatic vectors. *)
Definition contact_of (slot : nat) (ev : event) : option ChCollisionInfo :=
  match ev with
  | found gear_body shoe _ pa pb vn mdist =>
      Some (mkChCollisionInfo (GetCollisionModel gear_body) (GetCollisionModel shoe)
              vn pa pb mdist (ptr_auto slot))
  | _ => None
  end.

Definition is_environment (ev : event) : bool :=
  match ev with environment _ => true | _ => false end.

(** A program of one shoe whose table holds [record] for the shoe
    identifier 0. *)
Definition program_with_record (record : GearPinCacheContact) : Program :=
  mkProgram (set_hashed_contacts {[ 0%Z := record ]} (example_callback 1))
            (example_system [seated_shoe]) [].

(** Whether the allocator grants the two vectors of seat endpoints: a
    vector of no element asks for nothing. *)
Definition seat_vectors_granted `{E : Externals} (geom : GearPinGeometry) : bool :=
  ((to_size_t (m_num_teeth geom) <=? 0)%Z || operator_new (for_seat1_bar (m_num_teeth geom)))
  && ((to_size_t (m_num_teeth geom) <=? 0)%Z || operator_new (for_seat2_bar (m_num_teeth geom))).

(** Whether the allocator grants the table and the two tracker vectors. *)
Definition table_and_trackers_granted `{E : Externals} (sys : ChSystem) (dim : Z) : bool :=
  operator_new (for_hashed_contacts dim)
  && ((length (shoes sys) =? 0)
      || operator_new (for_persistentContactSteps (length (shoes sys))))
  && ((length (shoes sys) =? 0)
      || operator_new (for_contactPrevStep (length (shoes sys)))).

(** Modelled from the spec: [get_or_create] of the ContactCache of
    section 4.2, a store of a capacity fixed at construction: it returns
    the existing record, or inserts a zero-initialised 6-component record
    if the identifier has none. For an absent identifier and a store
    that holds as many records as its capacity the specification leaves
    the result open: [None]. *)
Definition ContactCache_get_or_create (capacity shoe_id : Z)
    (cache : gmap Z GearPinCacheContact)
    : option (gmap Z GearPinCacheContact * GearPinCacheContact) :=
  match cache !! shoe_id with
  | Some record => Some (cache, record)
  | None =>
      if (Z.of_nat (size cache) <? capacity)%Z
      then Some (<[shoe_id := mkGearPinCacheContact [0; 0; 0; 0; 0; 0]%float]> cache,
                 mkGearPinCacheContact [0; 0; 0; 0; 0; 0]%float)
      else None
  end.

(** Modelled from the spec: the update in place of the record stored
    under an identifier (section 3), with the reactions of the step;
    [None] when the identifier has no record. *)
Definition ContactCache_update (shoe_id : Z) (reactions : list float)
    (cache : gmap Z GearPinCacheContact) : option (gmap Z GearPinCacheContact) :=
  match cache !! shoe_id with
  | Some _ => Some (<[shoe_id := mkGearPinCacheContact reactions]> cache)
  | None => None
  end.

(** A table of two records, for the shoes 1 and 2. *)
Definition example_table : gmap Z GearPinCacheContact :=
  <[1%Z := mkGearPinCacheContact [1; 2; 3; 4; 5; 6]%float]>
    (<[2%Z := mkGearPinCacheContact [7; 8; 9; 10; 11; 12]%float]> ∅).

(** * Properties *)

(** ** IEEE comparisons *)

Lemma SFcompare_antisym (a b : spec_float) :
  SFcompare b a = CompOpp <$> SFcompare a b.
Proof.
  destruct a as [sa|sa| |sa ma ea], b as [sb|sb| |sb mb eb]; simpl;
    try reflexivity; try (destruct sa; reflexivity); try (destruct sb; reflexivity);
    try (destruct sa, sb; reflexivity).
  destruct sa, sb; simpl; try reflexivity;
    rewrite (Z.compare_antisym ea eb); destruct (ea ?= eb)%Z; simpl; try reflexivity;
    rewrite (Pos.compare_cont_antisym ma mb Eq); simpl.
  all: destruct (Pos.compare_cont _ _ _); reflexivity.
Qed.

(** A double that exceeds another is not less than or equal to it. *)
Lemma float_ltb_leb (a b : float) : (a <? b)%float = true -> (b <=? a)%float = false.
Proof.
  rewrite ltb_spec, leb_spec. unfold SFltb, SFleb.
  rewrite (SFcompare_antisym (Prim2SF a) (Prim2SF b)).
  destruct (SFcompare (Prim2SF a) (Prim2SF b)) as [[]|]; simpl; congruence.
Qed.

(** ** GearPinGeometry *)

Lemma GearPinGeometry_default_returns :
  GearPinGeometry_default = Returns default_geometry.
Proof. vm_compute. reflexivity. Qed.

(** The constructor in closed form: the conjunction of the three tests
    decides between the object and the failed assertion. *)
Lemma GearPinGeometry_new_cases
    (gear_base_radius gear_pitch_radius gear_seat_width_max gear_seat_width_min : float)
    (tooth_mid_bar : ChVector) (tooth_len tooth_width : float) (num_teeth : Z)
    (key_angle pin_radius pin_width_max pin_width_min pin_x_offset pin_y_offset : float) :
  GearPinGeometry_new gear_base_radius gear_pitch_radius gear_seat_width_max
    gear_seat_width_min tooth_mid_bar tooth_len tooth_width num_teeth key_angle
    pin_radius pin_width_max pin_width_min pin_x_offset pin_y_offset
  = if ((0 <? gear_seat_width_max - gear_seat_width_min)
        && (0 <? pin_width_max - pin_width_min)
        && (0 <? gear_pitch_radius - gear_base_radius))%float
    then Returns (mkGearPinGeometry gear_base_radius gear_pitch_radius
                    (gear_pitch_radius - gear_base_radius)%float
                    gear_seat_width_max gear_seat_width_min (to_size_t num_teeth) key_angle
                    tooth_mid_bar tooth_len tooth_width pin_radius pin_width_max
                    pin_width_min pin_x_offset pin_y_offset)
    else AssertionFailed.
Proof.
  unfold GearPinGeometry_new; cbn [m_gear_seat_width_max m_gear_seat_width_min
    m_pin_width_max m_pin_width_min m_gear_pitch_radius m_gear_base_radius].
  destruct (0 <? gear_seat_width_max - gear_seat_width_min)%float;
    destruct (0 <? pin_width_max - pin_width_min)%float;
    destruct (0 <? gear_pitch_radius - gear_base_radius)%float; reflexivity.
Qed.

(** C3. Construction of a [GearPinGeometry] returns exactly when the three
    differences [gear_seat_width_max - gear_seat_width_min],
    [pin_width_max - pin_width_min] and [gear_pitch_radius -
    gear_base_radius] are all greater than 0; when one of them is not,
    the construction fails on an assertion; and the object a successful
    construction returns stores [gear_pitch_radius - gear_base_radius] as
    its tooth radius. *)
Theorem GearPinGeometry_new_returns_iff
    (gear_base_radius gear_pitch_radius gear_seat_width_max gear_seat_width_min : float)
    (tooth_mid_bar : ChVector) (tooth_len tooth_width : float) (num_teeth : Z)
    (key_angle pin_radius pin_width_max pin_width_min pin_x_offset pin_y_offset : float) :
  let built := GearPinGeometry_new gear_base_radius gear_pitch_radius gear_seat_width_max
                 gear_seat_width_min tooth_mid_bar tooth_len tooth_width num_teeth key_angle
                 pin_radius pin_width_max pin_width_min pin_x_offset pin_y_offset in
  let valid := (0 <? gear_seat_width_max - gear_seat_width_min)%float = true
               /\ (0 <? pin_width_max - pin_width_min)%float = true
               /\ (0 <? gear_pitch_radius - gear_base_radius)%float = true in
  ((exists g, built = Returns g) <-> valid)
  /\ (built = AssertionFailed <-> ~ valid)
  /\ (forall g, built = Returns g ->
        m_gear_tooth_radius g = (gear_pitch_radius - gear_base_radius)%float).
Proof.
  intros built valid. subst built valid.
  rewrite GearPinGeometry_new_cases.
  destruct (0 <? gear_seat_width_max - gear_seat_width_min)%float;
    destruct (0 <? pin_width_max - pin_width_min)%float;
    destruct (0 <? gear_pitch_radius - gear_base_radius)%float; cbn [andb].
  all: split; [ | split ].
  all: try (intros g Hg; first [ discriminate Hg | injection Hg as <-; reflexivity ]).
  all: split; intros H; try reflexivity.
  all: repeat match goal with
       | H : exists _, _ |- _ => destruct H
       | H : _ /\ _ |- _ => destruct H
       | H : ?a = ?b |- _ => discriminate H
       | |- ~ _ => intros ?
       | H : ~ _ |- _ => exfalso; apply H; auto
       end.
  all: eauto.
Qed.

(** The default arguments pass the three assertions, and the tooth radius
    of the default geometry is [0.267 - 0.211]. *)
Lemma GearPinGeometry_new_returns_iff_witness :
  (exists g, GearPinGeometry_default = Returns g)
  /\ m_gear_tooth_radius default_geometry = (0.267 - 0.211)%float.
Proof.
  pose proof (GearPinGeometry_new_returns_iff 0.211 0.267 0.626 0.458
    (mkChVector 0.079815 0.24719 0.2712) 0.013119 0.0840 10
    0.0 0.0232 0.531 0.38 (-0.07581) 0) as [Hiff [_ Hradius]].
  split.
  - apply Hiff. repeat split; vm_compute; reflexivity.
  - apply Hradius. vm_compute. reflexivity.
Defined.

(** ** The broad phase *)

(** The guard of line 225 is the comparison of the centre distance with
    the sum of the two bounding radii, the equal case accepted. *)
Lemma broad_phase_unfold `{E : Externals} (g : GearPinGeometry) (gear_body shoe : ChBody) :
  broad_phase g gear_body shoe
  = (Length (ChVector_sub (GetPos gear_body)
               (ChVector_add (GetPos shoe)
                  (Rotate (GetRot shoe) (mkChVector (- m_pin_x_offset g) 0 0))))
       <=? sqrt (std_pow (Length (m_tooth_mid_bar g)) 2 + std_pow (m_tooth_len g * 0.5) 2)
           + Length (mkChVector (m_pin_x_offset g + m_pin_radius g) (m_pin_y_offset g)
                                (m_pin_width_max g / 2.0)))%float.
Proof. reflexivity. Qed.

(** C4, the code at the failing input. Default geometry, the gear at the
    origin, a shoe that is not rotated at [(0.625, 0, 0)]: the pin offset
    rotated and translated puts the pin centre at distance 0.54919 from
    the gear centre, within the sum 0.64625 of the two bounding radii,
    so the pair is to be accepted; the code centres the shoe's sphere at
    [(-pin_x_offset, 0, 0)] instead, at distance 0.70081, and rejects. *)
Theorem broad_phase_rejects_pin_within_bounds :
  let shoe := shoe_at 0.625 0 0 in
  let g := default_geometry in
  pin_center_spec (E := example_externals) g shoe = mkChVector (0.625 + -0.07581) 0 0
  /\ pin_pos (E := example_externals) g shoe = mkChVector (0.625 + 0.07581) 0 0
  /\ broad_phase_spec (E := example_externals) g gear_at_origin shoe = true
  /\ broad_phase (E := example_externals) g gear_at_origin shoe = false.
Proof. vm_compute. repeat split; reflexivity. Qed.

(** ** The contact cache *)

Lemma GearPinCacheContact_new_zero :
  GearPinCacheContact_new = mkGearPinCacheContact [0; 0; 0; 0; 0; 0]%float.
Proof. reflexivity. Qed.

Lemma get_or_create_lookup (shoeID : Z) (mhash : gmap Z GearPinCacheContact) :
  (get_or_create shoeID mhash).1 !! shoeID = Some (get_or_create shoeID mhash).2.
Proof.
  unfold get_or_create. destruct (mhash !! shoeID) eqn:Hfind; cbn.
  - exact Hfind.
  - apply lookup_insert_eq.
Qed.

Lemma get_or_create_lookup_ne (shoeID other : Z) (mhash : gmap Z GearPinCacheContact) :
  other <> shoeID -> (get_or_create shoeID mhash).1 !! other = mhash !! other.
Proof.
  intros Hne. unfold get_or_create. destruct (mhash !! shoeID); cbn.
  - reflexivity.
  - apply lookup_insert_ne. congruence.
Qed.

Lemma get_or_create_found (shoeID : Z) (mhash : gmap Z GearPinCacheContact)
    (record : GearPinCacheContact) :
  mhash !! shoeID = Some record -> get_or_create shoeID mhash = (mhash, record).
Proof. intros Hfind. unfold get_or_create. rewrite Hfind. reflexivity. Qed.

(** C5. On a table with room, or for an identifier that has a record,
    the get-or-create of lines 173-177 is the get-or-create of the
    specification. The record it returns is the one the table then holds
    for the identifier. For an identifier without a record that is a
    record of six zeros, inserted with every other entry left as it was
    and the table still within its capacity; for an identifier with a
    record it is that record, and the table is left as it was. A second
    get-or-create with the same identifier and no update in between
    returns the same record and changes nothing. An update of the record
    under the identifier is what the next get-or-create returns, and it
    leaves the record under every other identifier as it was. *)
Theorem get_or_create_zero_idempotent_independent
    (capacity shoeID : Z) (mhash : gmap Z GearPinCacheContact) :
  is_Some (mhash !! shoeID) \/ (Z.of_nat (size mhash) < capacity)%Z ->
  let table := (get_or_create shoeID mhash).1 in
  let record := (get_or_create shoeID mhash).2 in
  ContactCache_get_or_create capacity shoeID mhash = Some (table, record)
  /\ table !! shoeID = Some record
  /\ (mhash !! shoeID = None ->
        record = mkGearPinCacheContact [0; 0; 0; 0; 0; 0]%float
        /\ table = <[shoeID := record]> mhash
        /\ (Z.of_nat (size table) <= capacity)%Z)
  /\ (forall stored, mhash !! shoeID = Some stored -> record = stored /\ table = mhash)
  /\ get_or_create shoeID table = (table, record)
  /\ (forall other, other <> shoeID -> table !! other = mhash !! other)
  /\ (forall reactions, exists updated,
        ContactCache_update shoeID reactions table = Some updated
        /\ get_or_create shoeID updated = (updated, mkGearPinCacheContact reactions)
        /\ forall other, other <> shoeID -> updated !! other = table !! other).
Proof.
  intros Hroom table record.
  assert (Hstored : table !! shoeID = Some record) by apply get_or_create_lookup.
  split; [ | split; [ exact Hstored | split; [ | split; [ | split; [ | split ] ] ] ] ].
  - unfold table, record, ContactCache_get_or_create, get_or_create.
    destruct (mhash !! shoeID) as [stored|] eqn:Hfind; [ reflexivity | ].
    destruct Hroom as [[stored Hsome] | Hroom]; [ discriminate | ].
    destruct (Z.ltb_spec (Z.of_nat (size mhash)) capacity); [ reflexivity | lia ].
  - intros Hnone. unfold table, record, get_or_create. rewrite Hnone. cbn.
    split; [ reflexivity | ]. split; [ reflexivity | ].
    destruct Hroom as [[stored Hsome] | Hroom]; [ congruence | ].
    rewrite (map_size_insert_None _ _ _ Hnone). lia.
  - intros stored Hsome. unfold table, record.
    rewrite (get_or_create_found _ _ _ Hsome). split; reflexivity.
  - apply get_or_create_found, Hstored.
  - intros other Hne. apply get_or_create_lookup_ne, Hne.
  - intros reactions. exists (<[shoeID := mkGearPinCacheContact reactions]> table).
    unfold ContactCache_update. rewrite Hstored.
    split; [ reflexivity | ]. split.
    + apply get_or_create_found, lookup_insert_eq.
    + intros other Hne. apply lookup_insert_ne. congruence.
Qed.

(** The table of the two records 1, ..., 6 and 7, ..., 12 for the shoes 1
    and 2, of capacity 3. Shoe 3 gets a record of zeros and the two
    records stay; shoe 1 gets its record 1, ..., 6 and the table stays;
    writing 6, ..., 1 into the record of shoe 1 is what the next
    get-or-create returns, and shoe 2 keeps 7, ..., 12. *)
Lemma get_or_create_zero_idempotent_independent_witness :
  ContactCache_get_or_create 3 3 example_table = Some (get_or_create 3 example_table)
  /\ (get_or_create 3 example_table).2 = mkGearPinCacheContact [0; 0; 0; 0; 0; 0]%float
  /\ (get_or_create 3 example_table).1 !! 2%Z
     = Some (mkGearPinCacheContact [7; 8; 9; 10; 11; 12]%float)
  /\ get_or_create 1 example_table
     = (example_table, mkGearPinCacheContact [1; 2; 3; 4; 5; 6]%float)
  /\ exists updated,
       ContactCache_update 1 [6; 5; 4; 3; 2; 1]%float example_table = Some updated
       /\ get_or_create 1 updated = (updated, mkGearPinCacheContact [6; 5; 4; 3; 2; 1]%float)
       /\ updated !! 2%Z = Some (mkGearPinCacheContact [7; 8; 9; 10; 11; 12]%float).
Proof.
  assert (Hone : example_table !! 1%Z = Some (mkGearPinCacheContact [1; 2; 3; 4; 5; 6]%float))
    by apply lookup_insert_eq.
  assert (Htwo : example_table !! 2%Z
                 = Some (mkGearPinCacheContact [7; 8; 9; 10; 11; 12]%float)).
  { unfold example_table. rewrite lookup_insert_ne by discriminate. apply lookup_insert_eq. }
  assert (Hthree : example_table !! 3%Z = None).
  { unfold example_table. rewrite !lookup_insert_ne by discriminate. apply lookup_empty. }
  assert (Hsize : size example_table = 2).
  { unfold example_table. rewrite !map_size_insert_None, map_size_empty; [ reflexivity | | ].
    - apply lookup_empty.
    - rewrite lookup_insert_ne by discriminate. apply lookup_empty. }
  destruct (get_or_create_zero_idempotent_independent 3 3 example_table)
    as (Hspec & _ & Hzero & _ & _ & Hother & _).
  { right. rewrite Hsize. lia. }
  destruct (get_or_create_zero_idempotent_independent 3 1 example_table)
    as (_ & _ & _ & Hfound & _ & _ & Hupdate).
  { left. rewrite Hone. eexists. reflexivity. }
  destruct (Hzero Hthree) as (Hrecord & _ & _).
  destruct (Hfound _ Hone) as [Hrec Htab].
  split; [ rewrite Hspec; destruct (get_or_create 3 example_table); reflexivity | ].
  split; [ exact Hrecord | ].
  split; [ rewrite (Hother 2%Z) by discriminate; exact Htwo | ].
  split; [ rewrite (surjective_pairing (get_or_create 1 example_table)), Hrec, Htab;
           reflexivity | ].
  destruct (Hupdate [6; 5; 4; 3; 2; 1]%float) as (updated & Hupd & Hnext & Hrest).
  rewrite Htab in Hupd, Hrest.
  exists updated. split; [ exact Hupd | ]. split; [ exact Hnext | ].
  rewrite (Hrest 2%Z) by discriminate. exact Htwo.
Defined.

(** ** What the operations change *)

Lemma shoe_iteration_id `{E : Externals} (p : Program) (idx : nat) :
  shoe_iteration p idx = p.
Proof.
  unfold shoe_iteration, shoe_iteration_with, narrow_phase.
  destruct (shoes (system p) !! idx) as [shoe|]; [ | reflexivity ].
  destruct (broad_phase _ _ shoe); reflexivity.
Qed.

Lemma foldl_shoe_iteration_id `{E : Externals} (indices : list nat) (p : Program) :
  foldl shoe_iteration p indices = p.
Proof.
  induction indices as [|idx indices IH]; cbn.
  - reflexivity.
  - rewrite shoe_iteration_id. exact IH.
Qed.

(** The callback of a time step leaves the whole program as it found it. *)
Lemma PerformCustomCollision_id `{E : Externals} (p : Program) :
  PerformCustomCollision p = p.
Proof. unfold PerformCustomCollision, CollisionGearPinFamily. apply foldl_shoe_iteration_id. Qed.

Lemma Found_GearPin_Contact_this (gear_body shoe : ChBody) (shoeID : Z)
    (pa pb vn : ChVector) (mdist : float) (p : Program) :
  this (Found_GearPin_Contact gear_body shoe shoeID pa pb vn mdist p)
  = set_Ncontacts (wrap_int (m_Ncontacts (this p) + 1))
      (set_hashed_contacts (get_or_create shoeID (hashed_contacts (this p))).1 (this p)).
Proof.
  unfold Found_GearPin_Contact.
  destruct (get_or_create shoeID (hashed_contacts (this p))); reflexivity.
Qed.

Lemma Found_GearPin_Contact_system (gear_body shoe : ChBody) (shoeID : Z)
    (pa pb vn : ChVector) (mdist : float) (p : Program) :
  system (Found_GearPin_Contact gear_body shoe shoeID pa pb vn mdist p)
  = AddContact
      (mkChCollisionInfo (GetCollisionModel gear_body) (GetCollisionModel shoe)
         vn pa pb mdist (ptr_auto (length (stack p))))
      (system p).
Proof.
  unfold Found_GearPin_Contact.
  destruct (get_or_create shoeID (hashed_contacts (this p))); reflexivity.
Qed.

Lemma Found_GearPin_Contact_stack (gear_body shoe : ChBody) (shoeID : Z)
    (pa pb vn : ChVector) (mdist : float) (p : Program) :
  stack (Found_GearPin_Contact gear_body shoe shoeID pa pb vn mdist p) = stack p.
Proof.
  unfold Found_GearPin_Contact.
  destruct (get_or_create shoeID (hashed_contacts (this p))); cbn.
  apply take_app_length.
Qed.

(** No operation writes the vectors of the persistence tracker, the
    derived endpoints or the geometry. *)
Lemma exec_frame `{E : Externals} (p : Program) (ev : event) :
  m_persistentContactSteps (this (exec p ev)) = m_persistentContactSteps (this p)
  /\ m_contactPrevStep (this (exec p ev)) = m_contactPrevStep (this p)
  /\ m_seat1_bar (this (exec p ev)) = m_seat1_bar (this p)
  /\ m_seat2_bar (this (exec p ev)) = m_seat2_bar (this p)
  /\ m_p1_bar (this (exec p ev)) = m_p1_bar (this p)
  /\ m_p2_bar (this (exec p ev)) = m_p2_bar (this p)
  /\ m_geom (this (exec p ev)) = m_geom (this p).
Proof.
  destruct ev as [ | gear_body shoe shoeID pa pb vn mdist | sys ]; cbn [exec].
  - rewrite PerformCustomCollision_id. repeat split.
  - rewrite Found_GearPin_Contact_this. repeat split.
  - repeat split.
Qed.

Lemma run_frame `{E : Externals} (evs : list event) (p : Program) :
  m_persistentContactSteps (this (run p evs)) = m_persistentContactSteps (this p)
  /\ m_contactPrevStep (this (run p evs)) = m_contactPrevStep (this p)
  /\ m_seat1_bar (this (run p evs)) = m_seat1_bar (this p)
  /\ m_seat2_bar (this (run p evs)) = m_seat2_bar (this p)
  /\ m_p1_bar (this (run p evs)) = m_p1_bar (this p)
  /\ m_p2_bar (this (run p evs)) = m_p2_bar (this p)
  /\ m_geom (this (run p evs)) = m_geom (this p).
Proof.
  unfold run. revert p. induction evs as [|ev evs IH]; intros p; cbn [foldl].
  - repeat split.
  - destruct (IH (exec p ev)) as (H1 & H2 & H3 & H4 & H5 & H6 & H7).
    destruct (exec_frame p ev) as (K1 & K2 & K3 & K4 & K5 & K6 & K7).
    repeat split; congruence.
Qed.

Lemma run_app `{E : Externals} (p : Program) (evs evs' : list event) :
  run p (evs ++ evs') = run (run p evs) evs'.
Proof. unfold run. apply foldl_app. Qed.

(** What a successful construction leaves in the program. *)
Lemma start_inv `{E : Externals} (sys : ChSystem) (geom : GearPinGeometry) (dim : Z)
    (p0 : Program) :
  start sys geom dim = Some (Returns p0) ->
  system p0 = sys /\ stack p0 = []
  /\ m_geom (this p0) = geom
  /\ m_Ncontacts (this p0) = 0%Z
  /\ hashed_contacts (this p0) = ∅
  /\ m_contactPrevStep (this p0) = replicate (length (shoes sys)) false
  /\ m_persistentContactSteps (this p0) = replicate (length (shoes sys)) 0%Z
  /\ seat_loop geom (S (Z.to_nat (m_num_teeth geom))) 0
       (replicate (Z.to_nat (to_size_t (m_num_teeth geom))) ChVector_zero)
       (replicate (Z.to_nat (to_size_t (m_num_teeth geom))) ChVector_zero)
     = Some (Returns (m_seat1_bar (this p0), m_seat2_bar (this p0))).
Proof.
  unfold start, GearPinCollisionCallback_new, ChVector_vector_resize, tracker_resize,
    new_ChHashTable.
  destruct (ChVector_vector_max_size <? to_size_t (m_num_teeth geom))%Z; [ discriminate | ].
  destruct (_ || operator_new (for_seat1_bar _)); [ | discriminate ].
  destruct (_ || operator_new (for_seat2_bar _)); [ | discriminate ].
  cbn [and_then]. rewrite !resize_nil.
  destruct (seat_loop geom _ 0 _ _) as [[[seat1 seat2]| | | |]|]; try discriminate.
  destruct (operator_new (for_hashed_contacts dim)); [ | discriminate ].
  destruct (_ || operator_new (for_persistentContactSteps _)); [ | discriminate ].
  destruct (_ || operator_new (for_contactPrevStep _)); [ | discriminate ].
  cbn. intros Hp0. injection Hp0 as <-. cbn. repeat split.
Qed.

Lemma example_start (shoe_list : list ChBody) :
  start (E := example_externals) (example_system shoe_list) default_geometry 1000
  = Some (Returns (example_program shoe_list)).
Proof.
  unfold start, GearPinCollisionCallback_new, tracker_resize, example_program,
    example_callback.
  cbn [example_system shoes operator_new example_externals].
  rewrite !orb_true_r, !resize_nil. reflexivity.
Qed.

(** ** Warm-start data of a contact *)

Lemma get_or_create_all_zero (shoeID : Z) (mhash : gmap Z GearPinCacheContact) :
  all_zero mhash ->
  all_zero (get_or_create shoeID mhash).1
  /\ (get_or_create shoeID mhash).2 = GearPinCacheContact_new.
Proof.
  intros Hzero. unfold get_or_create.
  destruct (mhash !! shoeID) as [record|] eqn:Hfind; cbn.
  - split; [ exact Hzero | exact (Hzero _ _ Hfind) ].
  - split; [ | reflexivity ].
    intros other record. rewrite lookup_insert. case_decide.
    + congruence.
    + apply Hzero.
Qed.

Lemma exec_all_zero `{E : Externals} (p : Program) (ev : event) :
  all_zero (hashed_contacts (this p)) -> all_zero (hashed_contacts (this (exec p ev))).
Proof.
  intros Hzero.
  destruct ev as [ | gear_body shoe shoeID pa pb vn mdist | sys ]; cbn [exec].
  - rewrite PerformCustomCollision_id. exact Hzero.
  - rewrite Found_GearPin_Contact_this. cbn. apply get_or_create_all_zero, Hzero.
  - exact Hzero.
Qed.

Lemma run_all_zero `{E : Externals} (evs : list event) (p : Program) :
  all_zero (hashed_contacts (this p)) -> all_zero (hashed_contacts (this (run p evs))).
Proof.
  unfold run. revert p. induction evs as [|ev evs IH]; intros p Hzero; cbn [foldl].
  - exact Hzero.
  - apply IH, exec_all_zero, Hzero.
Qed.

(** C1, the code on any call. The contact [Found_GearPin_Contact] hands
    to the contact engine points into the automatic copy
    [mreaction_cache], not into the shoe's table entry: once the call has
    returned the pointer addresses no live object, reading or writing the
    warm-start data through it is undefined, and no write through it can
    reach the entry. The entry is alive and holds what the copy held, but
    nothing refers to it: in a run from construction every entry holds
    the six zeros of its creation at every step, and so does every copy a
    contact is submitted with. *)
Theorem Found_GearPin_Contact_submits_dead_copy `{E : Externals}
    (gear_body shoe : ChBody) (shoeID : Z) (pa pb vn : ChVector) (mdist : float)
    (p : Program) :
  let p' := Found_GearPin_Contact gear_body shoe shoeID pa pb vn mdist p in
  (exists mcont,
     contacts (system p') = contacts (system p) ++ [mcont]
     /\ reaction_cache mcont = ptr_auto (length (stack p))
     /\ reaction_cache mcont <> ptr_entry shoeID
     /\ load p' (reaction_cache mcont) = None
     /\ (forall v, store (reaction_cache mcont) v p' = Undefined))
  /\ load p' (ptr_entry shoeID) = Some (reactions_at_AddContact shoeID p)
  /\ (forall sys geom dim p0 evs,
        start sys geom dim = Some (Returns p0) -> p = run p0 evs ->
        reactions_at_AddContact shoeID p = [0; 0; 0; 0; 0; 0]%float
        /\ load p' (ptr_entry shoeID) = Some [0; 0; 0; 0; 0; 0]%float).
Proof.
  intros p'.
  assert (Hstack : stack p' = stack p) by apply Found_GearPin_Contact_stack.
  assert (Hentry : load p' (ptr_entry shoeID) = Some (reactions_at_AddContact shoeID p)).
  { unfold load, p'. rewrite Found_GearPin_Contact_this. cbn.
    rewrite get_or_create_lookup. reflexivity. }
  split; [ | split ].
  - assert (Hdead : stack p' !! length (stack p) = None).
    { rewrite Hstack. apply lookup_ge_None. lia. }
    exists (mkChCollisionInfo (GetCollisionModel gear_body) (GetCollisionModel shoe)
              vn pa pb mdist (ptr_auto (length (stack p)))).
    cbn [reaction_cache load store].
    split; [ unfold p'; rewrite Found_GearPin_Contact_system; reflexivity | ].
    split; [ reflexivity | ]. split; [ discriminate | ].
    split; [ exact Hdead | ].
    intros v. rewrite Hdead. reflexivity.
  - exact Hentry.
  - intros sys geom dim p0 evs Hstart ->.
    assert (Hzero : all_zero (hashed_contacts (this (run p0 evs)))).
    { apply run_all_zero. destruct (start_inv _ _ _ _ Hstart) as (_ & _ & _ & _ & -> & _).
      intros ? ? Hlook. rewrite lookup_empty in Hlook. discriminate. }
    assert (Hcopy : reactions_at_AddContact shoeID (run p0 evs) = [0; 0; 0; 0; 0; 0]%float).
    { unfold reactions_at_AddContact.
      destruct (get_or_create_all_zero shoeID _ Hzero) as [_ ->]. reflexivity. }
    split; [ exact Hcopy | ]. rewrite Hentry, Hcopy. reflexivity.
Qed.

(** ** The narrow phase and the persistence tracker *)

(** C7, the code where the broad phase passes. The arm of the narrow
    phase is empty: for a shoe that passes the broad phase, whatever its
    pose, the iteration changes nothing, and the step submits no contact
    and leaves the contact counter alone. A pin placed exactly at the
    seat surface is such a shoe. *)
Theorem narrow_phase_reports_no_contact `{E : Externals}
    (p : Program) (idx : nat) (shoe : ChBody) :
  shoes (system p) !! idx = Some shoe ->
  broad_phase (m_geom (this p)) (gear (system p)) shoe = true ->
  shoe_iteration p idx = narrow_phase idx p
  /\ narrow_phase idx p = p
  /\ contacts (system (PerformCustomCollision p)) = contacts (system p)
  /\ GetNcontacts_GearPin (PerformCustomCollision p) = GetNcontacts_GearPin p.
Proof.
  intros Hshoe Hpass. rewrite PerformCustomCollision_id.
  unfold shoe_iteration, shoe_iteration_with. rewrite Hshoe, Hpass.
  repeat split.
Qed.

(** The shoe seated on the gear passes the broad phase of the default
    geometry, and the step reports nothing for it. *)
Lemma narrow_phase_reports_no_contact_witness :
  let p := example_program [seated_shoe] in
  broad_phase (E := example_externals) default_geometry gear_at_origin seated_shoe = true
  /\ contacts (system (PerformCustomCollision (E := example_externals) p)) = []
  /\ GetNcontacts_GearPin (PerformCustomCollision (E := example_externals) p) = 0%Z.
Proof.
  assert (Hpass : broad_phase (E := example_externals) default_geometry gear_at_origin
                    seated_shoe = true) by (vm_compute; reflexivity).
  destruct (narrow_phase_reports_no_contact (E := example_externals)
              (example_program [seated_shoe]) 0 seated_shoe eq_refl Hpass)
    as (_ & _ & Hcontacts & Hcount).
  split; [ exact Hpass | ]. split; [ exact Hcontacts | exact Hcount ].
Defined.

(** C2, the code over four steps. Whatever the poses at the four steps,
    among them a shoe that is free, engaged, engaged and free again, the
    callback never writes the tracker: the consecutive-step count of
    every shoe reads 0 after each of the steps, 0,0,0,0 where the state
    machine gives 0,1,2,0, and the previous-step flag reads false. *)
Theorem persistence_counts_of_four_steps `{E : Externals}
    (geom : GearPinGeometry) (dim : Z) (s1 s2 s3 s4 : ChSystem) (p0 : Program) (idx : nat) :
  start s1 geom dim = Some (Returns p0) ->
  idx < length (shoes s1) ->
  let p1 := run p0 [step] in
  let p2 := run p1 [environment s2; step] in
  let p3 := run p2 [environment s3; step] in
  let p4 := run p3 [environment s4; step] in
  (fun p => m_persistentContactSteps (this p) !! idx) <$> [p1; p2; p3; p4]
  = [Some 0%Z; Some 0%Z; Some 0%Z; Some 0%Z]
  /\ (fun p => m_contactPrevStep (this p) !! idx) <$> [p1; p2; p3; p4]
     = [Some false; Some false; Some false; Some false].
Proof.
  intros Hstart Hidx p1 p2 p3 p4.
  destruct (start_inv _ _ _ _ Hstart) as (_ & _ & _ & _ & _ & Hflags & Hcounts).
  destruct Hcounts as [Hcounts _].
  destruct (run_frame [step] p0) as (C1 & F1 & _).
  destruct (run_frame [environment s2; step] p1) as (C2 & F2 & _).
  destruct (run_frame [environment s3; step] p2) as (C3 & F3 & _).
  destruct (run_frame [environment s4; step] p3) as (C4 & F4 & _).
  fold p1 in C1, F1. fold p2 in C2, F2. fold p3 in C3, F3. fold p4 in C4, F4.
  cbn [fmap list_fmap].
  rewrite C4, C3, C2, C1, F4, F3, F2, F1, Hcounts, Hflags.
  rewrite !lookup_replicate_2 by exact Hidx. split; reflexivity.
Qed.

(** One shoe, far from the gear at the first and the fourth step and
    seated on it at the second and the third. *)
Lemma persistence_counts_of_four_steps_witness :
  let free := example_system [far_shoe] in
  let engaged := example_system [seated_shoe] in
  let p1 := run (E := example_externals) (example_program [far_shoe]) [step] in
  let p2 := run (E := example_externals) p1 [environment engaged; step] in
  let p3 := run (E := example_externals) p2 [environment engaged; step] in
  let p4 := run (E := example_externals) p3 [environment free; step] in
  (fun p => m_persistentContactSteps (this p) !! 0) <$> [p1; p2; p3; p4]
  = [Some 0%Z; Some 0%Z; Some 0%Z; Some 0%Z]
  /\ (fun p => m_contactPrevStep (this p) !! 0) <$> [p1; p2; p3; p4]
     = [Some false; Some false; Some false; Some false].
Proof.
  apply (persistence_counts_of_four_steps (E := example_externals) default_geometry 1000
           (example_system [far_shoe]) (example_system [seated_shoe])
           (example_system [seated_shoe]) (example_system [far_shoe])
           (example_program [far_shoe]) 0).
  - apply example_start.
  - cbn. lia.
Defined.

(** ** A shoe the broad phase rejects *)

(** With the centre distance as the code measures it, from the gear to
    the sphere line 224 places: when it exceeds the sum of the two
    bounding radii the guard of line 225 is false, the iteration for the
    shoe does not enter the arm of the narrow phase, whatever that arm
    holds, and the step changes nothing. *)
Lemma broad_phase_rejection_has_no_effect `{E : Externals}
    (arm : nat -> Program -> Program) (p : Program) (idx : nat) (shoe : ChBody) :
  shoes (system p) !! idx = Some shoe ->
  (bound_rad_Gear (m_geom (this p)) + bound_rad_Shoe (m_geom (this p))
     <? center_distance (m_geom (this p)) (gear (system p)) shoe)%float = true ->
  broad_phase (m_geom (this p)) (gear (system p)) shoe = false
  /\ shoe_iteration_with arm p idx = p
  /\ shoe_iteration p idx = p
  /\ contacts (system (PerformCustomCollision p)) = contacts (system p)
  /\ GetNcontacts_GearPin (PerformCustomCollision p) = GetNcontacts_GearPin p
  /\ hashed_contacts (this (PerformCustomCollision p)) = hashed_contacts (this p).
Proof.
  intros Hshoe Hexceeds.
  assert (Hreject : broad_phase (m_geom (this p)) (gear (system p)) shoe = false).
  { unfold broad_phase. apply float_ltb_leb, Hexceeds. }
  rewrite PerformCustomCollision_id.
  unfold shoe_iteration, shoe_iteration_with. rewrite Hshoe, Hreject.
  repeat split.
Qed.

(** C8, the code at the failing input. Default geometry, the gear at the
    origin, a shoe that is not rotated at [(-0.65, 0, 0)]. The centre of
    its pin, at distance 0.72581 from the centre of the gear, and the
    centre of the shoe itself, at distance 0.65, are both farther than
    the sum 0.64625 of the two bounding radii. The code measures the
    distance to [(-pin_x_offset, 0, 0)] of the shoe frame instead, finds
    0.57419 and passes the guard of line 225: the iteration for the shoe
    enters the arm of the narrow phase, whatever that arm holds. With
    the arm as the header has it, empty, the step still changes
    nothing. *)
Theorem broad_phase_admits_shoe_beyond_bounds :
  let shoe := shoe_at (-0.65) 0 0 in
  let g := default_geometry in
  let p := example_program [shoe] in
  let radii := (bound_rad_Gear (E := example_externals) g + bound_rad_Shoe g)%float in
  (radii <? Length (ChVector_sub (GetPos gear_at_origin)
                      (pin_center_spec (E := example_externals) g shoe)))%float = true
  /\ (radii <? Length (ChVector_sub (GetPos gear_at_origin) (GetPos shoe)))%float = true
  /\ broad_phase (E := example_externals) g gear_at_origin shoe = true
  /\ (forall arm, shoe_iteration_with (E := example_externals) arm p 0 = arm 0 p)
  /\ PerformCustomCollision (E := example_externals) p = p.
Proof.
  cbv zeta.
  assert (Hpass : broad_phase (E := example_externals) default_geometry gear_at_origin
                    (shoe_at (-0.65) 0 0) = true) by (vm_compute; reflexivity).
  split; [ vm_compute; reflexivity | ]. split; [ vm_compute; reflexivity | ].
  split; [ exact Hpass | ]. split.
  - intros arm. unfold shoe_iteration_with. cbn [example_program system this shoes
      example_system gear m_geom example_callback lookup list_lookup].
    rewrite Hpass. reflexivity.
  - apply PerformCustomCollision_id.
Qed.

(** ** The contact counter *)

Lemma wrap_int_small (v : Z) : (INT_MIN <= v <= INT_MAX)%Z -> wrap_int v = v.
Proof.
  unfold INT_MIN, INT_MAX, wrap_int. intros Hrange.
  rewrite Z.mod_small by lia. lia.
Qed.

Lemma wrap_int_add_l (a b : Z) : wrap_int (wrap_int a + b) = wrap_int (a + b).
Proof.
  unfold wrap_int.
  replace (((a + 2147483648) `mod` 4294967296 - 2147483648 + b + 2147483648)%Z)
    with (((a + 2147483648) `mod` 4294967296 + b)%Z) by lia.
  rewrite Zplus_mod_idemp_l. f_equal. f_equal. lia.
Qed.

Lemma count_found_app (evs evs' : list event) :
  count_found (evs ++ evs') = (count_found evs + count_found evs')%Z.
Proof. unfold count_found. rewrite filter_app, length_app. lia. Qed.

Lemma count_found_singleton (ev : event) :
  count_found [ev] = if is_found ev then 1%Z else 0%Z.
Proof. destruct ev; reflexivity. Qed.

Lemma count_found_nonneg (evs : list event) : (0 <= count_found evs)%Z.
Proof. unfold count_found. lia. Qed.

Lemma count_found_replicate (n : nat) (shoeID : Z) :
  count_found (replicate n (example_found shoeID)) = Z.of_nat n.
Proof.
  induction n as [|n IH].
  - reflexivity.
  - change (replicate (S n) (example_found shoeID))
      with ([example_found shoeID] ++ replicate n (example_found shoeID)).
    rewrite count_found_app, IH, count_found_singleton.
    unfold example_found. cbn [is_found]. lia.
Qed.

(** A contact report appends one record to the contact container and
    adds one to the counter in [int] arithmetic; no other event touches
    the counter. *)
Lemma exec_Ncontacts `{E : Externals} (p : Program) (ev : event) :
  GetNcontacts_GearPin (exec p ev)
  = if is_found ev then wrap_int (GetNcontacts_GearPin p + 1) else GetNcontacts_GearPin p.
Proof.
  unfold GetNcontacts_GearPin.
  destruct ev as [ | gear_body shoe shoeID pa pb vn mdist | sys ]; cbn [exec is_found].
  - rewrite PerformCustomCollision_id. reflexivity.
  - rewrite Found_GearPin_Contact_this. reflexivity.
  - reflexivity.
Qed.

Lemma exec_contacts_found `{E : Externals} (p : Program) (ev : event) :
  is_found ev = true ->
  exists mcont, contacts (system (exec p ev)) = contacts (system p) ++ [mcont].
Proof.
  destruct ev as [ | gear_body shoe shoeID pa pb vn mdist | sys ]; try discriminate.
  intros _. cbn [exec]. rewrite Found_GearPin_Contact_system. eexists. reflexivity.
Qed.

Lemma run_Ncontacts `{E : Externals} (evs : list event) (p : Program) :
  wrap_int (GetNcontacts_GearPin p) = GetNcontacts_GearPin p ->
  GetNcontacts_GearPin (run p evs) = wrap_int (GetNcontacts_GearPin p + count_found evs).
Proof.
  intros Hint. induction evs as [|ev evs IH] using rev_ind.
  - cbn. rewrite Z.add_0_r. symmetry. exact Hint.
  - rewrite run_app, count_found_app, count_found_singleton.
    change (run (run p evs) [ev]) with (exec (run p evs) ev).
    rewrite exec_Ncontacts, IH. destruct (is_found ev).
    + rewrite wrap_int_add_l. f_equal. lia.
    + f_equal. lia.
Qed.

Lemma run_Ncontacts_start `{E : Externals} (sys : ChSystem) (geom : GearPinGeometry)
    (dim : Z) (p0 : Program) (evs : list event) :
  start sys geom dim = Some (Returns p0) ->
  GetNcontacts_GearPin (run p0 evs) = wrap_int (count_found evs).
Proof.
  intros Hstart.
  destruct (start_inv _ _ _ _ Hstart) as (_ & _ & _ & Hzero & _).
  rewrite run_Ncontacts; unfold GetNcontacts_GearPin; rewrite Hzero; reflexivity.
Qed.

(** C6, amended. The contact counter is 0 after construction; a contact
    report appends one record to the contact container and sets the
    counter to its value plus 1 as an [int]; a time step and a change of
    the system leave it alone; nothing resets it. As long as no more than
    INT_MAX contacts were reported since construction the counter is
    their number: it is cumulative over the run, it does not decrease
    from one event to the next, and a report raises it by exactly 1. *)
Theorem Ncontacts_counts_submitted_contacts `{E : Externals}
    (sys : ChSystem) (geom : GearPinGeometry) (dim : Z) (p0 : Program) :
  start sys geom dim = Some (Returns p0) ->
  GetNcontacts_GearPin p0 = 0%Z
  /\ (forall p ev, is_found ev = true ->
        (exists mcont, contacts (system (exec p ev)) = contacts (system p) ++ [mcont])
        /\ GetNcontacts_GearPin (exec p ev) = wrap_int (GetNcontacts_GearPin p + 1))
  /\ (forall p ev, is_found ev = false ->
        GetNcontacts_GearPin (exec p ev) = GetNcontacts_GearPin p)
  /\ (forall evs, (count_found evs <= INT_MAX)%Z ->
        GetNcontacts_GearPin (run p0 evs) = count_found evs)
  /\ (forall evs ev, (count_found (evs ++ [ev]) <= INT_MAX)%Z ->
        (GetNcontacts_GearPin (run p0 evs) <= GetNcontacts_GearPin (run p0 (evs ++ [ev])))%Z
        /\ (is_found ev = true ->
              GetNcontacts_GearPin (run p0 (evs ++ [ev]))
              = (GetNcontacts_GearPin (run p0 evs) + 1)%Z)).
Proof.
  intros Hstart.
  assert (Hcount : forall evs, (count_found evs <= INT_MAX)%Z ->
                     GetNcontacts_GearPin (run p0 evs) = count_found evs).
  { intros evs Hbound. rewrite (run_Ncontacts_start _ _ _ _ _ Hstart).
    apply wrap_int_small. pose proof (count_found_nonneg evs). unfold INT_MIN. lia. }
  split; [ | split; [ | split; [ | split ] ] ].
  - destruct (start_inv _ _ _ _ Hstart) as (_ & _ & _ & Hzero & _). exact Hzero.
  - intros p ev Hfound. split.
    + apply exec_contacts_found, Hfound.
    + rewrite exec_Ncontacts, Hfound. reflexivity.
  - intros p ev Hother. rewrite exec_Ncontacts, Hother. reflexivity.
  - exact Hcount.
  - intros evs ev Hbound.
    pose proof (count_found_nonneg [ev]) as Hev.
    rewrite count_found_app in Hbound.
    rewrite (Hcount (evs ++ [ev])) by (rewrite count_found_app; exact Hbound).
    rewrite (Hcount evs) by lia.
    rewrite count_found_app, count_found_singleton.
    split.
    + destruct (is_found ev); lia.
    + intros ->. reflexivity.
Qed.

(** Two steps around two contact reports: the counter reads 1 and then 2. *)
Lemma Ncontacts_counts_submitted_contacts_witness :
  let p0 := example_program [seated_shoe] in
  let evs := [step; example_found 0; step] in
  GetNcontacts_GearPin p0 = 0%Z
  /\ GetNcontacts_GearPin (run (E := example_externals) p0 evs) = 1%Z
  /\ GetNcontacts_GearPin (run (E := example_externals) p0 (evs ++ [example_found 0])) = 2%Z.
Proof.
  destruct (Ncontacts_counts_submitted_contacts (E := example_externals)
              (example_system [seated_shoe]) default_geometry 1000
              (example_program [seated_shoe]) (example_start [seated_shoe]))
    as (Hzero & _ & _ & Hcount & Hnext).
  split; [ exact Hzero | ].
  assert (Hone : GetNcontacts_GearPin
                   (run (E := example_externals) (example_program [seated_shoe])
                      [step; example_found 0; step]) = 1%Z).
  { rewrite Hcount; [ reflexivity | vm_compute; discriminate ]. }
  split; [ exact Hone | ].
  destruct (Hnext [step; example_found 0; step] (example_found 0)) as [_ Hplus].
  - vm_compute. discriminate.
  - rewrite Hplus by reflexivity. rewrite Hone. reflexivity.
Defined.

(** C6 as stated fails at the end of the [int] range: the report after
    the [INT_MAX]-th takes the counter from 2147483647 to -2147483648. *)
Lemma Ncontacts_wraps_after_INT_MAX_contacts :
  let p0 := example_program [seated_shoe] in
  let evs := replicate (Z.to_nat INT_MAX) (example_found 0) in
  start (E := example_externals) (example_system [seated_shoe]) default_geometry 1000
  = Some (Returns p0)
  /\ GetNcontacts_GearPin (run (E := example_externals) p0 evs) = 2147483647%Z
  /\ GetNcontacts_GearPin (run (E := example_externals) p0 (evs ++ [example_found 0]))
     = (-2147483648)%Z.
Proof.
  intros p0 evs.
  assert (Hstart : start (E := example_externals) (example_system [seated_shoe])
                     default_geometry 1000 = Some (Returns p0)) by apply example_start.
  assert (Hevs : count_found evs = INT_MAX).
  { unfold evs. rewrite count_found_replicate. apply Z2Nat.id. discriminate. }
  split; [ exact Hstart | ]. split.
  - rewrite (run_Ncontacts_start _ _ _ _ _ Hstart), Hevs. reflexivity.
  - rewrite (run_Ncontacts_start _ _ _ _ _ Hstart), count_found_app, Hevs. reflexivity.
Qed.

(** ** The previous-step query *)

Lemma exec_shoes `{E : Externals} (n : nat) (p : Program) (ev : event) :
  keeps_shoe_count n ev -> length (shoes (system p)) = n ->
  length (shoes (system (exec p ev))) = n.
Proof.
  destruct ev as [ | gear_body shoe shoeID pa pb vn mdist | sys ]; cbn [exec keeps_shoe_count].
  - intros _. rewrite PerformCustomCollision_id. auto.
  - intros _. rewrite Found_GearPin_Contact_system. auto.
  - auto.
Qed.

Lemma run_shoes `{E : Externals} (n : nat) (evs : list event) (p : Program) :
  Forall (keeps_shoe_count n) evs -> length (shoes (system p)) = n ->
  length (shoes (system (run p evs))) = n.
Proof.
  unfold run. revert p. induction evs as [|ev evs IH]; intros p Hkeep Hn; cbn [foldl].
  - exact Hn.
  - apply Forall_cons in Hkeep as [Hev Hevs]. apply IH; [ exact Hevs | ].
    apply exec_shoes; assumption.
Qed.

(** The query on a program whose vector of flags is as long as the
    caller's vector of shoes. *)
Lemma Get_contactPrevStep_sized (p : Program) (idx : nat) :
  length (m_contactPrevStep (this p)) = length (shoes (system p)) ->
  (idx < length (shoes (system p)) ->
     exists flag, m_contactPrevStep (this p) !! idx = Some flag
                  /\ Get_contactPrevStep p idx = Returns flag)
  /\ (length (shoes (system p)) <= idx -> Get_contactPrevStep p idx = AssertionFailed).
Proof.
  intros Hsize. unfold Get_contactPrevStep, assert. split.
  - intros Hidx. destruct (lookup_lt_is_Some_2 (m_contactPrevStep (this p)) idx) as [flag Hflag].
    { lia. }
    exists flag. split; [ exact Hflag | ].
    destruct (Nat.ltb_spec idx (length (shoes (system p)))); [ | lia ].
    cbn. rewrite Hflag. reflexivity.
  - intros Hidx. destruct (Nat.ltb_spec idx (length (shoes (system p)))); [ lia | ].
    reflexivity.
Qed.

(** C10, amended. In a run from construction in which the caller's vector
    of shoes keeps the number of elements it had at construction, for
    every index below the number of shoes the assertion of the query
    holds and the query returns the flag stored for that shoe; for an
    index that is not below it the assertion fails and the program
    aborts, no value is returned. *)
Theorem Get_contactPrevStep_returns_stored_flag `{E : Externals}
    (sys : ChSystem) (geom : GearPinGeometry) (dim : Z) (p0 : Program)
    (evs : list event) (idx : nat) :
  start sys geom dim = Some (Returns p0) ->
  Forall (keeps_shoe_count (length (shoes sys))) evs ->
  let p := run p0 evs in
  (idx < length (shoes (system p)) ->
     (idx <? length (shoes (system p))) = true
     /\ exists flag, m_contactPrevStep (this p) !! idx = Some flag
                     /\ Get_contactPrevStep p idx = Returns flag)
  /\ (length (shoes (system p)) <= idx -> Get_contactPrevStep p idx = AssertionFailed).
Proof.
  intros Hstart Hkeep p.
  destruct (start_inv _ _ _ _ Hstart) as (Hsys & _ & _ & _ & _ & Hflags & _).
  assert (Hshoes : length (shoes (system p)) = length (shoes sys)).
  { apply run_shoes; [ exact Hkeep | rewrite Hsys; reflexivity ]. }
  assert (Hsize : length (m_contactPrevStep (this p)) = length (shoes (system p))).
  { destruct (run_frame evs p0) as (_ & Hframe & _). fold p in Hframe.
    rewrite Hframe, Hflags, length_replicate, Hshoes. reflexivity. }
  destruct (Get_contactPrevStep_sized p idx Hsize) as [Hin Hout].
  split.
  - intros Hidx. split; [ apply Nat.ltb_lt, Hidx | apply Hin, Hidx ].
  - exact Hout.
Qed.

(** Two shoes that move between two steps: the flag of the second shoe
    is returned, and it is the [false] of construction. *)
Lemma Get_contactPrevStep_returns_stored_flag_witness :
  let p := run (E := example_externals) (example_program [far_shoe; far_shoe])
             [step; environment (example_system [seated_shoe; far_shoe]); step] in
  Get_contactPrevStep p 1 = Returns false
  /\ Get_contactPrevStep p 2 = AssertionFailed.
Proof.
  intros p.
  destruct (Get_contactPrevStep_returns_stored_flag (E := example_externals)
              (example_system [far_shoe; far_shoe]) default_geometry 1000
              (example_program [far_shoe; far_shoe])
              [step; environment (example_system [seated_shoe; far_shoe]); step] 1
              (example_start [far_shoe; far_shoe])) as [Hin _].
  { repeat constructor. }
  destruct (Get_contactPrevStep_returns_stored_flag (E := example_externals)
              (example_system [far_shoe; far_shoe]) default_geometry 1000
              (example_program [far_shoe; far_shoe])
              [step; environment (example_system [seated_shoe; far_shoe]); step] 2
              (example_start [far_shoe; far_shoe])) as [_ Hout].
  { repeat constructor. }
  split.
  - destruct Hin as [_ [flag [Hflag Hret]]].
    + vm_compute. lia.
    + fold p in Hflag, Hret. rewrite Hret. f_equal.
      vm_compute in Hflag. congruence.
  - apply Hout. vm_compute. lia.
Defined.

(** C10 as stated fails once the caller has added a shoe: the callback
    was built for one shoe, the vector it refers to now holds two, index
    1 is below the number of shoes and passes the assertion, and the
    subscript reads beyond the one flag there is. *)
Lemma Get_contactPrevStep_beyond_flags_after_push_back :
  let p0 := example_program [seated_shoe] in
  let p := run (E := example_externals) p0
             [environment (example_system [seated_shoe; far_shoe])] in
  start (E := example_externals) (example_system [seated_shoe]) default_geometry 1000
  = Some (Returns p0)
  /\ 1 < length (shoes (system p))
  /\ m_contactPrevStep (this p) !! 1 = None
  /\ Get_contactPrevStep p 1 = Undefined.
Proof.
  cbv zeta. split; [ apply example_start | ].
  split; [ cbn; lia | ]. split; reflexivity.
Qed.

(** ** The seat endpoints *)

Lemma to_size_t_small (v : Z) : (0 <= v < 18446744073709551616)%Z -> to_size_t v = v.
Proof. intros Hrange. unfold to_size_t. apply Z.mod_small, Hrange. Qed.

Section SeatLoop.

Context `{E : Externals}.
Variable g : GearPinGeometry.

(** [k] iterations from the index [t], none of them beyond the teeth or
    beyond INT_MAX: they assign the endpoints at [t], ..., [t + k - 1]
    and leave the loop counter at [t + k]. *)
Lemma seat_loop_run (k : nat) : forall (fuel t : nat) (seat1 seat2 : list ChVector),
  (Z.of_nat (t + k) <= INT_MAX)%Z ->
  (0 < k -> (Z.of_nat (t + k) <= m_num_teeth g)%Z) ->
  exists seat1' seat2',
    seat_loop g (k + fuel) (Z.of_nat t) seat1 seat2
    = seat_loop g fuel (Z.of_nat (t + k)) seat1' seat2'
    /\ (forall i, seat1' !! i
                  = if decide (t <= i < t + k /\ i < length seat1)
                    then Some (seat1_endpoint g) else seat1 !! i)
    /\ (forall i, seat2' !! i
                  = if decide (t <= i < t + k /\ i < length seat2)
                    then Some (seat2_endpoint g) else seat2 !! i)
    /\ length seat1' = length seat1 /\ length seat2' = length seat2.
Proof.
  unfold INT_MAX.
  induction k as [|k IH]; intros fuel t seat1 seat2 Hint Hteeth.
  - exists seat1, seat2. rewrite Nat.add_0_r. split; [ reflexivity | ].
    repeat split; intros i; case_decide; try reflexivity; lia.
  - specialize (Hteeth ltac:(lia)).
    cbn [Nat.add seat_loop]. rewrite to_size_t_small by lia.
    destruct (Z.ltb_spec (Z.of_nat t) (m_num_teeth g)) as [_|]; [ | lia ].
    destruct (Z.ltb_spec (Z.of_nat t) INT_MAX) as [_|Hlast];
      [ | unfold INT_MAX in Hlast; lia ].
    rewrite Nat2Z.id.
    replace (Z.of_nat t + 1)%Z with (Z.of_nat (S t)) by lia.
    destruct (IH fuel (S t) (<[t := seat1_endpoint g]> seat1) (<[t := seat2_endpoint g]> seat2))
      as (seat1' & seat2' & Hrun & Hlook1 & Hlook2 & Hlen1 & Hlen2); [ lia | lia | ].
    exists seat1', seat2'. rewrite Hrun.
    replace (S t + k) with (t + S k) by lia.
    split; [ reflexivity | ].
    rewrite Hlen1, Hlen2, !length_insert.
    repeat split; intros i.
    + rewrite Hlook1, length_insert, list_lookup_insert.
      repeat case_decide; try reflexivity; lia.
    + rewrite Hlook2, length_insert, list_lookup_insert.
      repeat case_decide; try reflexivity; lia.
Qed.

(** A tooth count an [int] can hold: the loop ends within its budget,
    with the endpoints assigned at every tooth index. *)
Lemma seat_loop_returns (seat1 seat2 : list ChVector) :
  (m_num_teeth g <= INT_MAX)%Z ->
  exists seat1' seat2',
    seat_loop g (S (Z.to_nat (m_num_teeth g))) 0 seat1 seat2 = Some (Returns (seat1', seat2'))
    /\ (forall i, seat1' !! i
                  = if decide ((Z.of_nat i < m_num_teeth g)%Z /\ i < length seat1)
                    then Some (seat1_endpoint g) else seat1 !! i)
    /\ (forall i, seat2' !! i
                  = if decide ((Z.of_nat i < m_num_teeth g)%Z /\ i < length seat2)
                    then Some (seat2_endpoint g) else seat2 !! i)
    /\ length seat1' = length seat1 /\ length seat2' = length seat2.
Proof.
  unfold INT_MAX. intros Hint.
  destruct (seat_loop_run (Z.to_nat (m_num_teeth g)) 1 0 seat1 seat2)
    as (seat1' & seat2' & Hrun & Hlook1 & Hlook2 & Hlen1 & Hlen2);
    [ unfold INT_MAX; lia | lia | ].
  exists seat1', seat2'.
  replace (S (Z.to_nat (m_num_teeth g))) with (Z.to_nat (m_num_teeth g) + 1) by lia.
  change (Z.of_nat 0) with 0%Z in Hrun. rewrite Hrun.
  split; [ | split; [ | split; [ | split ] ] ]; try assumption.
  - cbn [seat_loop Nat.add]. rewrite to_size_t_small by lia.
    destruct (Z.ltb_spec (Z.of_nat (Z.to_nat (m_num_teeth g))) (m_num_teeth g));
      [ lia | reflexivity ].
  - intros i. rewrite Hlook1. repeat case_decide; try reflexivity; lia.
  - intros i. rewrite Hlook2. repeat case_decide; try reflexivity; lia.
Qed.

(** More teeth than an [int] can count: the loop reaches [t_idx++] at
    INT_MAX, within its budget. *)
Lemma seat_loop_overflows (seat1 seat2 : list ChVector) :
  (INT_MAX < m_num_teeth g)%Z ->
  seat_loop g (S (Z.to_nat (m_num_teeth g))) 0 seat1 seat2 = Some Undefined.
Proof.
  unfold INT_MAX. intros Hint.
  destruct (seat_loop_run (Z.to_nat 2147483647)
              (S (Z.to_nat (m_num_teeth g) - Z.to_nat 2147483647)) 0 seat1 seat2)
    as (seat1' & seat2' & Hrun & _); [ unfold INT_MAX; lia | lia | ].
  replace (S (Z.to_nat (m_num_teeth g)))
    with (Z.to_nat 2147483647 + S (Z.to_nat (m_num_teeth g) - Z.to_nat 2147483647)) by lia.
  change (Z.of_nat 0) with 0%Z in Hrun. rewrite Hrun.
  cbn [seat_loop Nat.add]. rewrite Z2Nat.id by lia. rewrite to_size_t_small by lia.
  destruct (Z.ltb_spec 2147483647 (m_num_teeth g)); [ reflexivity | lia ].
Qed.

End SeatLoop.

(** The budget of the loop is never what ends a construction. *)
Lemma start_not_None `{E : Externals} (sys : ChSystem) (geom : GearPinGeometry) (dim : Z) :
  start sys geom dim <> None.
Proof.
  unfold start, GearPinCollisionCallback_new.
  destruct (ChVector_vector_resize (for_seat1_bar _) _ []) as [seat1| | | |];
    try discriminate.
  destruct (ChVector_vector_resize (for_seat2_bar _) _ []) as [seat2| | | |];
    try discriminate.
  cbn [and_then].
  destruct (Z.le_gt_cases (m_num_teeth geom) INT_MAX) as [Hint|Hint].
  - destruct (seat_loop_returns geom seat1 seat2 Hint) as (seat1' & seat2' & -> & _).
    discriminate.
  - rewrite (seat_loop_overflows geom seat1 seat2) by lia. discriminate.
Qed.

(** The constructor returns for a tooth count an [int] can hold when the
    allocator grants what it asks for. *)
Lemma start_returns `{E : Externals} (sys : ChSystem) (geom : GearPinGeometry) (dim : Z) :
  (0 <= m_num_teeth geom <= INT_MAX)%Z ->
  seat_vectors_granted geom = true ->
  table_and_trackers_granted sys dim = true ->
  exists p0, start sys geom dim = Some (Returns p0).
Proof.
  unfold seat_vectors_granted, table_and_trackers_granted.
  intros Hteeth [Hseat1 Hseat2]%andb_true_iff [[Htable Hcounts]%andb_true_iff Hflags]%andb_true_iff.
  unfold start, GearPinCollisionCallback_new, ChVector_vector_resize, tracker_resize,
    new_ChHashTable.
  unfold INT_MAX in Hteeth.
  destruct (Z.ltb_spec ChVector_vector_max_size (to_size_t (m_num_teeth geom))) as [Hmax|_].
  { rewrite to_size_t_small in Hmax by lia. unfold ChVector_vector_max_size in Hmax. lia. }
  cbn [length]. change (Z.of_nat 0) with 0%Z. rewrite Hseat1, Hseat2, Htable, Hcounts, Hflags.
  cbn [and_then].
  destruct (seat_loop_returns geom
              (resize (Z.to_nat (to_size_t (m_num_teeth geom))) ChVector_zero [])
              (resize (Z.to_nat (to_size_t (m_num_teeth geom))) ChVector_zero []))
    as (seat1' & seat2' & -> & _); [ unfold INT_MAX; lia | ].
  eexists. reflexivity.
Qed.

(** The two vectors a construction that returns leaves: the tooth count
    is one an [int] can hold, and the seat endpoints stand at every
    tooth index. *)
Lemma start_seats `{E : Externals} (sys : ChSystem) (geom : GearPinGeometry) (dim : Z)
    (p0 : Program) :
  start sys geom dim = Some (Returns p0) ->
  (m_num_teeth geom <= INT_MAX)%Z
  /\ length (m_seat1_bar (this p0)) = Z.to_nat (to_size_t (m_num_teeth geom))
  /\ length (m_seat2_bar (this p0)) = Z.to_nat (to_size_t (m_num_teeth geom))
  /\ (forall i, (Z.of_nat i < m_num_teeth geom)%Z ->
        m_seat1_bar (this p0) !! i = Some (seat1_endpoint geom)
        /\ m_seat2_bar (this p0) !! i = Some (seat2_endpoint geom)).
Proof.
  intros Hstart.
  destruct (start_inv _ _ _ _ Hstart) as (_ & _ & _ & _ & _ & _ & _ & Hloop).
  assert (Hint : (m_num_teeth geom <= INT_MAX)%Z).
  { destruct (Z.le_gt_cases (m_num_teeth geom) INT_MAX) as [Hint|Hint]; [ exact Hint | ].
    rewrite seat_loop_overflows in Hloop by lia. discriminate. }
  split; [ exact Hint | ].
  destruct (seat_loop_returns geom
              (replicate (Z.to_nat (to_size_t (m_num_teeth geom))) ChVector_zero)
              (replicate (Z.to_nat (to_size_t (m_num_teeth geom))) ChVector_zero) Hint)
    as (seat1' & seat2' & Hsome & Hlook1 & Hlook2 & Hlen1 & Hlen2).
  rewrite Hsome in Hloop. injection Hloop as -> ->.
  rewrite length_replicate in Hlen1, Hlen2.
  split; [ exact Hlen1 | ]. split; [ exact Hlen2 | ].
  intros i Hi. rewrite Hlook1, Hlook2, length_replicate.
  unfold INT_MAX in Hint.
  assert (Hlen : i < Z.to_nat (to_size_t (m_num_teeth geom))).
  { rewrite to_size_t_small by lia. lia. }
  rewrite !decide_True by (split; assumption). split; reflexivity.
Qed.

(** C9. The constructor of the callback ends within the budget of its
    loop, and for a tooth count an [int] can hold it returns whenever the
    allocator grants what it asks for. Whenever it returns, for every
    tooth index [t] from 0 to [num_teeth - 1] the inner and the outer
    seat endpoint are [(base_radius * sin(key_angle), base_radius *
    cos(key_angle), seat_width_min / 2)] and the same with
    [seat_width_max / 2]: one pair for all the teeth, with no rotation
    from tooth to tooth; and no event after the construction changes
    them. *)
Theorem seat_endpoints_identical `{E : Externals}
    (sys : ChSystem) (geom : GearPinGeometry) (dim : Z) :
  start sys geom dim <> None
  /\ ((0 <= m_num_teeth geom <= INT_MAX)%Z ->
      seat_vectors_granted geom = true -> table_and_trackers_granted sys dim = true ->
      exists p0, start sys geom dim = Some (Returns p0))
  /\ (forall p0, start sys geom dim = Some (Returns p0) ->
        forall (evs : list event) (t : Z),
          (0 <= t < m_num_teeth geom)%Z ->
          m_seat1_bar (this (run p0 evs)) !! Z.to_nat t
          = Some (mkChVector (m_gear_base_radius geom * std_sin (m_key_angle geom))
                             (m_gear_base_radius geom * std_cos (m_key_angle geom))
                             (m_gear_seat_width_min geom / 2.0))
          /\ m_seat2_bar (this (run p0 evs)) !! Z.to_nat t
             = Some (mkChVector (m_gear_base_radius geom * std_sin (m_key_angle geom))
                                (m_gear_base_radius geom * std_cos (m_key_angle geom))
                                (m_gear_seat_width_max geom / 2.0))).
Proof.
  split; [ apply start_not_None | ]. split; [ apply start_returns | ].
  intros p0 Hstart evs t Hteeth.
  destruct (start_seats _ _ _ _ Hstart) as (_ & _ & _ & Hseats).
  destruct (run_frame evs p0) as (_ & _ & -> & -> & _).
  apply (Hseats (Z.to_nat t)). lia.
Qed.

(** The ten teeth of the default geometry: the construction returns, and
    the last seat is in place after a step and a contact report. *)
Lemma seat_endpoints_identical_witness :
  let p := run (E := example_externals) (example_program [seated_shoe])
             [step; example_found 0] in
  (exists p0, start (E := example_externals) (example_system [seated_shoe])
                default_geometry 1000 = Some (Returns p0))
  /\ m_seat1_bar (this p) !! 9 = Some (mkChVector (0.211 * 0) (0.211 * 1) (0.458 / 2.0))
  /\ m_seat2_bar (this p) !! 9 = Some (mkChVector (0.211 * 0) (0.211 * 1) (0.626 / 2.0)).
Proof.
  destruct (seat_endpoints_identical (E := example_externals)
              (example_system [seated_shoe]) default_geometry 1000)
    as (_ & Hreturns & Hseats).
  split.
  - apply Hreturns; vm_compute; try reflexivity. split; discriminate.
  - apply (Hseats (example_program [seated_shoe]) (example_start [seated_shoe])
             [step; example_found 0] 9%Z).
    vm_compute. split; [ discriminate | reflexivity ].
Defined.

(** * Further properties of the header *)

(** ** IEEE NaN *)

Lemma Prim2SF_nan : Prim2SF nan = S754_nan.
Proof. vm_compute. reflexivity. Qed.

Lemma Prim2SF_eq (a b : float) : Prim2SF a = Prim2SF b -> a = b.
Proof. intros H. rewrite <- (SF2Prim_Prim2SF a), <- (SF2Prim_Prim2SF b), H. reflexivity. Qed.

Lemma SFcompare_refl (a : spec_float) : a <> S754_nan -> SFcompare a a = Some Eq.
Proof.
  destruct a as [s|s| |s m e]; intros Hnan; try congruence; simpl.
  - reflexivity.
  - destruct s; reflexivity.
  - destruct s; rewrite Z.compare_refl, Pos.compare_cont_refl; reflexivity.
Qed.

Lemma is_nan_eq (a : float) : is_nan a = true -> a = nan.
Proof.
  unfold is_nan. rewrite FloatAxioms.eqb_spec. unfold SFeqb. intros H.
  apply Prim2SF_eq. rewrite Prim2SF_nan.
  destruct (Prim2SF a) eqn:Ha; try reflexivity.
  all: rewrite SFcompare_refl in H by discriminate; discriminate.
Qed.

Lemma is_nan_Prim2SF (a : float) : Prim2SF a = S754_nan -> is_nan a = true.
Proof. intros H. unfold is_nan. rewrite FloatAxioms.eqb_spec, H. reflexivity. Qed.

Lemma add_nan_l (b : float) : (nan + b)%float = nan.
Proof. apply Prim2SF_eq. rewrite add_spec, Prim2SF_nan. reflexivity. Qed.
Lemma add_nan_r (a : float) : (a + nan)%float = nan.
Proof. apply Prim2SF_eq. rewrite add_spec, Prim2SF_nan. destruct (Prim2SF a); reflexivity. Qed.
Lemma sub_nan_l (b : float) : (nan - b)%float = nan.
Proof. apply Prim2SF_eq. rewrite sub_spec, Prim2SF_nan. reflexivity. Qed.
Lemma sub_nan_r (a : float) : (a - nan)%float = nan.
Proof. apply Prim2SF_eq. rewrite sub_spec, Prim2SF_nan. destruct (Prim2SF a); reflexivity. Qed.
Lemma mul_nan_l (b : float) : (nan * b)%float = nan.
Proof. apply Prim2SF_eq. rewrite mul_spec, Prim2SF_nan. reflexivity. Qed.
Lemma sqrt_nan : sqrt nan = nan.
Proof. vm_compute. reflexivity. Qed.
Lemma leb_nan_l (b : float) : (nan <=? b)%float = false.
Proof. rewrite leb_spec, Prim2SF_nan. reflexivity. Qed.
Lemma leb_nan_r (a : float) : (a <=? nan)%float = false.
Proof. rewrite leb_spec, Prim2SF_nan. unfold SFleb. destruct (Prim2SF a); reflexivity. Qed.
Lemma ltb_nan_r (a : float) : (a <? nan)%float = false.
Proof. rewrite ltb_spec, Prim2SF_nan. unfold SFltb. destruct (Prim2SF a); reflexivity. Qed.

Lemma SFcompare_None (a b : spec_float) :
  SFcompare a b = None -> a = S754_nan \/ b = S754_nan.
Proof. destruct a, b; simpl; intros H; try discriminate; auto. Qed.

Lemma leb_false_iff (a b : float) :
  (a <=? b)%float = false <-> (b <? a)%float = true \/ is_nan a = true \/ is_nan b = true.
Proof.
  split.
  - rewrite leb_spec, ltb_spec. unfold SFleb, SFltb.
    rewrite (SFcompare_antisym (Prim2SF a) (Prim2SF b)).
    destruct (SFcompare (Prim2SF a) (Prim2SF b)) as [[]|] eqn:Hc; simpl; try discriminate; auto.
    intros _. right. destruct (SFcompare_None _ _ Hc); [left|right]; apply is_nan_Prim2SF; assumption.
  - intros [H | [H | H]].
    + apply float_ltb_leb, H.
    + rewrite (is_nan_eq _ H). apply leb_nan_l.
    + rewrite (is_nan_eq _ H). apply leb_nan_r.
Qed.

(** ** GearPinGeometry, beyond the three assertions *)

(** X1. The constructor checks the three differences and nothing else:
    when it returns for some arguments, it returns for the same two
    radii, two seat widths and two pin widths with any tooth midpoint,
    tooth length and width, tooth count, key angle, pin radius and pin
    offsets. The object stores those as they were given, a NaN offset
    or a negative size included, and the tooth count as the [size_t] it
    converts to: 0 stays 0, -1 becomes 18446744073709551615. *)
Theorem GearPinGeometry_new_checks_differences_only
    (gear_base_radius gear_pitch_radius gear_seat_width_max gear_seat_width_min : float)
    (pin_width_max pin_width_min : float)
    (tooth_mid_bar tooth_mid_bar' : ChVector) (tooth_len tooth_width tooth_len' tooth_width' : float)
    (num_teeth num_teeth' : Z)
    (key_angle pin_radius pin_x_offset pin_y_offset : float)
    (key_angle' pin_radius' pin_x_offset' pin_y_offset' : float) (g : GearPinGeometry) :
  GearPinGeometry_new gear_base_radius gear_pitch_radius gear_seat_width_max
    gear_seat_width_min tooth_mid_bar tooth_len tooth_width num_teeth key_angle
    pin_radius pin_width_max pin_width_min pin_x_offset pin_y_offset = Returns g ->
  GearPinGeometry_new gear_base_radius gear_pitch_radius gear_seat_width_max
    gear_seat_width_min tooth_mid_bar' tooth_len' tooth_width' num_teeth' key_angle'
    pin_radius' pin_width_max pin_width_min pin_x_offset' pin_y_offset'
  = Returns (mkGearPinGeometry gear_base_radius gear_pitch_radius
               (m_gear_tooth_radius g) gear_seat_width_max gear_seat_width_min
               (num_teeth' mod 18446744073709551616)%Z key_angle' tooth_mid_bar'
               tooth_len' tooth_width'
               pin_radius' pin_width_max pin_width_min pin_x_offset' pin_y_offset')
  /\ m_num_teeth g = (num_teeth mod 18446744073709551616)%Z.
Proof.
  rewrite !GearPinGeometry_new_cases.
  destruct (_ && _ && _); [ | discriminate ].
  intros Hg. injection Hg as <-. split; reflexivity.
Qed.

(** A tooth count of -1, negative tooth sizes and pin radius, a NaN key
    angle and NaN or infinite offsets, around the default radii and
    widths. *)
Lemma GearPinGeometry_new_checks_differences_only_witness :
  GearPinGeometry_new 0.211 0.267 0.626 0.458 ChVector_zero (-1) (-1) (-1)
    nan (-0.0232) 0.531 0.38 infinity nan
  = Returns (mkGearPinGeometry 0.211 0.267 (0.267 - 0.211)%float 0.626 0.458
               18446744073709551615 nan
               ChVector_zero (-1) (-1) (-0.0232) 0.531 0.38 infinity nan).
Proof.
  apply (GearPinGeometry_new_checks_differences_only 0.211 0.267 0.626 0.458 0.531 0.38
           (mkChVector 0.079815 0.24719 0.2712) ChVector_zero 0.013119 0.0840 (-1) (-1)
           10 (-1) 0.0 0.0232 (-0.07581) 0 nan (-0.0232) infinity nan default_geometry).
  apply GearPinGeometry_default_returns.
Defined.

(** X2. A NaN among the two radii, the two seat widths and the two pin
    widths fails an assertion of the constructor. *)
Theorem GearPinGeometry_new_rejects_NaN
    (gear_base_radius gear_pitch_radius gear_seat_width_max gear_seat_width_min : float)
    (tooth_mid_bar : ChVector) (tooth_len tooth_width : float) (num_teeth : Z)
    (key_angle pin_radius pin_width_max pin_width_min pin_x_offset pin_y_offset : float) :
  is_nan gear_base_radius || is_nan gear_pitch_radius
  || is_nan gear_seat_width_max || is_nan gear_seat_width_min
  || is_nan pin_width_max || is_nan pin_width_min = true ->
  GearPinGeometry_new gear_base_radius gear_pitch_radius gear_seat_width_max
    gear_seat_width_min tooth_mid_bar tooth_len tooth_width num_teeth key_angle
    pin_radius pin_width_max pin_width_min pin_x_offset pin_y_offset
  = AssertionFailed.
Proof.
  intros Hnan. rewrite GearPinGeometry_new_cases.
  repeat (apply orb_true_iff in Hnan as [Hnan|Hnan]);
    apply is_nan_eq in Hnan; subst;
    rewrite ?sub_nan_l, ?sub_nan_r, ?ltb_nan_r, ?andb_false_r, ?andb_false_l; reflexivity.
Qed.

(** A seat width that is NaN. *)
Lemma GearPinGeometry_new_rejects_NaN_witness :
  GearPinGeometry_new 0.211 0.267 nan 0.458 (mkChVector 0.079815 0.24719 0.2712)
    0.013119 0.0840 10 0.0 0.0232 0.531 0.38 (-0.07581) 0
  = AssertionFailed.
Proof.
  apply GearPinGeometry_new_rejects_NaN. reflexivity.
Defined.

(** ** The broad phase on IEEE doubles *)

Lemma Length_nan (v : ChVector) :
  is_nan (vx v) || is_nan (vy v) || is_nan (vz v) = true -> Length v = nan.
Proof.
  intros Hnan. unfold Length.
  repeat (apply orb_true_iff in Hnan as [Hnan|Hnan]);
    apply is_nan_eq in Hnan; rewrite Hnan;
    rewrite ?mul_nan_l, ?add_nan_l, ?add_nan_r, ?add_nan_l; apply sqrt_nan.
Qed.

(** X3. A shoe or a gear with a NaN coordinate in its position has a
    NaN centre distance and is rejected by the broad phase, whatever the
    geometry, the rotation and the externals. *)
Theorem broad_phase_rejects_NaN_position `{E : Externals}
    (g : GearPinGeometry) (gear_body shoe : ChBody) :
  is_nan (vx (GetPos shoe)) || is_nan (vy (GetPos shoe)) || is_nan (vz (GetPos shoe))
  || is_nan (vx (GetPos gear_body)) || is_nan (vy (GetPos gear_body))
  || is_nan (vz (GetPos gear_body)) = true ->
  is_nan (center_distance g gear_body shoe) = true
  /\ broad_phase g gear_body shoe = false.
Proof.
  intros Hnan.
  assert (Hdist : center_distance g gear_body shoe = nan).
  { unfold center_distance. apply Length_nan. unfold ChVector_sub, pin_pos, ChVector_add.
    cbn [vx vy vz].
    repeat (apply orb_true_iff in Hnan as [Hnan|Hnan]);
      apply is_nan_eq in Hnan; rewrite Hnan;
      rewrite ?add_nan_l, ?sub_nan_l, ?sub_nan_r; cbn; rewrite ?orb_true_r; reflexivity. }
  unfold broad_phase. rewrite Hdist. split; [ reflexivity | apply leb_nan_l ].
Qed.

(** A shoe whose x coordinate is NaN. *)
Lemma broad_phase_rejects_NaN_position_witness :
  broad_phase (E := example_externals) default_geometry gear_at_origin (shoe_at nan 0 0)
  = false.
Proof.
  apply (broad_phase_rejects_NaN_position (E := example_externals) default_geometry
           gear_at_origin (shoe_at nan 0 0)).
  reflexivity.
Defined.

(** X4. The broad phase rejects a pair exactly when the centre distance
    exceeds the sum of the two bounding radii or one of the two is NaN;
    in every other case, the equal one included, it accepts. *)
Theorem broad_phase_rejects_iff `{E : Externals}
    (g : GearPinGeometry) (gear_body shoe : ChBody) :
  broad_phase g gear_body shoe = false
  <-> (bound_rad_Gear g + bound_rad_Shoe g <? center_distance g gear_body shoe)%float = true
      \/ is_nan (center_distance g gear_body shoe) = true
      \/ is_nan (bound_rad_Gear g + bound_rad_Shoe g)%float = true.
Proof. unfold broad_phase. apply leb_false_iff. Qed.

(** ** Runs of the callback *)

(** X5. Time steps and changes of the system leave the callback object
    and the stack as they were, whatever the poses; a run of time steps
    alone leaves the whole program as it was, contact container
    included. *)
Theorem time_steps_leave_callback_untouched `{E : Externals}
    (p : Program) (evs : list event) :
  Forall (fun ev => is_found ev = false) evs ->
  this (run p evs) = this p
  /\ stack (run p evs) = stack p
  /\ (Forall (fun ev => is_environment ev = false) evs -> run p evs = p).
Proof.
  unfold run. revert p. induction evs as [|ev evs IH]; intros p Hsteps; cbn [foldl].
  - repeat split.
  - apply Forall_cons in Hsteps as [Hev Hevs].
    destruct (IH (exec p ev) Hevs) as (Hthis & Hstack & Hsame).
    destruct ev as [ | gear_body shoe shoeID pa pb vn mdist | sys ]; try discriminate;
      cbn [exec] in *.
    + rewrite PerformCustomCollision_id in *. split; [ exact Hthis | ].
      split; [ exact Hstack | ]. intros Hno. apply Forall_cons in Hno as [_ Hno]. auto.
    + split; [ exact Hthis | ]. split; [ exact Hstack | ].
      intros Hno. apply Forall_cons in Hno as [Hno _]. discriminate.
Qed.


(** Three steps with the shoe moved onto the gear in between. *)
Lemma time_steps_leave_callback_untouched_witness :
  this (run (E := example_externals) (example_program [far_shoe])
          [step; environment (example_system [seated_shoe]); step; step])
  = example_callback 1
  /\ run (E := example_externals) (example_program [seated_shoe]) [step; step; step]
     = example_program [seated_shoe].
Proof.
  split.
  - apply (time_steps_leave_callback_untouched (E := example_externals)
             (example_program [far_shoe])
             [step; environment (example_system [seated_shoe]); step; step]).
    repeat constructor.
  - apply (time_steps_leave_callback_untouched (E := example_externals)
             (example_program [seated_shoe]) [step; step; step]).
    + repeat constructor.
    + repeat constructor.
Defined.

Lemma run_table `{E : Externals} (evs : list event) : forall (p : Program) (shoeID : Z),
  hashed_contacts (this (run p evs)) !! shoeID
  = match hashed_contacts (this p) !! shoeID with
    | Some record => Some record
    | None => if decide (shoeID ∈ reported_shoes evs) then Some GearPinCacheContact_new else None
    end.
Proof.
  unfold run. induction evs as [|ev evs IH]; intros p shoeID; cbn [foldl].
  - destruct (hashed_contacts (this p) !! shoeID); [ reflexivity | ].
    rewrite decide_False; [ reflexivity | ]. unfold reported_shoes. cbn. apply not_elem_of_nil.
  - rewrite IH.
    destruct ev as [ | gear_body shoe reported pa pb vn mdist | sys ]; cbn [exec].
    + rewrite PerformCustomCollision_id. reflexivity.
    + rewrite Found_GearPin_Contact_this. cbn [hashed_contacts set_Ncontacts set_hashed_contacts].
      change (reported_shoes (found gear_body shoe reported pa pb vn mdist :: evs))
        with (reported :: reported_shoes evs).
      destruct (decide (shoeID = reported)) as [->|Hne].
      * rewrite get_or_create_lookup. unfold get_or_create.
        destruct (hashed_contacts (this p) !! reported); cbn; [ reflexivity | ].
        rewrite decide_True; [ reflexivity | ]. apply elem_of_cons. auto.
      * rewrite get_or_create_lookup_ne by exact Hne.
        destruct (hashed_contacts (this p) !! shoeID); [ reflexivity | ].
        destruct (decide (shoeID ∈ reported_shoes evs)) as [Hin|Hout].
        -- rewrite decide_True by (apply elem_of_cons; auto). reflexivity.
        -- rewrite decide_False; [ reflexivity | ].
           intros [Heq|Hin]%elem_of_cons; auto.
    + reflexivity.
Qed.

(** The number of records of a table that holds one for exactly the
    identifiers of a list. *)
Lemma size_of_reported (mhash : gmap Z GearPinCacheContact) (ids : list Z)
    (record : GearPinCacheContact) :
  (forall shoeID, mhash !! shoeID = if decide (shoeID ∈ ids) then Some record else None) ->
  size mhash = length (remove_dups ids).
Proof.
  intros Hlookup.
  rewrite <- (size_dom (D := gset Z)), <- (size_list_to_set (C := gset Z))
    by apply NoDup_remove_dups.
  f_equal. apply set_eq. intros shoeID.
  rewrite elem_of_dom, elem_of_list_to_set, elem_of_remove_dups, Hlookup.
  case_decide; split; intros Hin; try assumption; try (eexists; reflexivity).
  - destruct Hin as [? Hin]. discriminate.
  - contradiction.
Qed.

(** X6. After a run from construction that reports contacts for no more
    distinct shoe identifiers than the capacity the table was
    constructed with, the table holds an entry for exactly the
    identifiers reported, one for each however often it was reported,
    every entry is the record of six zeros, and the table is within its
    capacity: no entry is ever removed or written. *)
Theorem table_holds_reported_shoes `{E : Externals}
    (sys : ChSystem) (geom : GearPinGeometry) (dim : Z) (p0 : Program)
    (evs : list event) :
  start sys geom dim = Some (Returns p0) ->
  (Z.of_nat (length (remove_dups (reported_shoes evs))) <= dim)%Z ->
  (forall shoeID,
     hashed_contacts (this (run p0 evs)) !! shoeID
     = if decide (shoeID ∈ reported_shoes evs)
       then Some (mkGearPinCacheContact [0; 0; 0; 0; 0; 0]%float)
       else None)
  /\ size (hashed_contacts (this (run p0 evs))) = length (remove_dups (reported_shoes evs))
  /\ (Z.of_nat (size (hashed_contacts (this (run p0 evs)))) <= dim)%Z.
Proof.
  intros Hstart Hcapacity.
  assert (Hlookup : forall shoeID,
            hashed_contacts (this (run p0 evs)) !! shoeID
            = if decide (shoeID ∈ reported_shoes evs)
              then Some (mkGearPinCacheContact [0; 0; 0; 0; 0; 0]%float)
              else None).
  { intros shoeID. rewrite run_table.
    destruct (start_inv _ _ _ _ Hstart) as (_ & _ & _ & _ & -> & _).
    rewrite lookup_empty. reflexivity. }
  split; [ exact Hlookup | ].
  rewrite (size_of_reported _ _ _ Hlookup). split; [ reflexivity | exact Hcapacity ].
Qed.

(** Reports for the shoes 7, 3 and 7 again, in a table constructed for
    1000: an entry for 7, none for 5, two entries in all. *)
Lemma table_holds_reported_shoes_witness :
  let p := run (E := example_externals) (example_program [seated_shoe])
             [example_found 7; step; example_found 3; example_found 7] in
  hashed_contacts (this p) !! 7%Z = Some (mkGearPinCacheContact [0; 0; 0; 0; 0; 0]%float)
  /\ hashed_contacts (this p) !! 5%Z = None
  /\ size (hashed_contacts (this p)) = 2.
Proof.
  destruct (table_holds_reported_shoes (E := example_externals) _ _ _ _
              [example_found 7; step; example_found 3; example_found 7]
              (example_start [seated_shoe])) as (Hlookup & Hsize & _).
  { vm_compute. discriminate. }
  split; [ exact (Hlookup 7%Z) | ]. split; [ exact (Hlookup 5%Z) | exact Hsize ].
Defined.

(** X7. Over time steps and contact reports the contact container grows
    by one record per report, in the order of the reports, behind the
    records it held; each record carries the two collision models, the
    normal, the two points and the distance of its report; the shoes,
    the gear and the stack are left as they were. *)
Theorem contacts_are_submitted_in_report_order `{E : Externals} (evs : list event) :
  forall p : Program,
  Forall (fun ev => is_environment ev = false) evs ->
  contacts (system (run p evs))
  = contacts (system p) ++ omap (contact_of (length (stack p))) evs
  /\ shoes (system (run p evs)) = shoes (system p)
  /\ gear (system (run p evs)) = gear (system p)
  /\ stack (run p evs) = stack p.
Proof.
  unfold run. induction evs as [|ev evs IH]; intros p Hcalls; cbn [foldl].
  - cbn. rewrite app_nil_r. repeat split.
  - apply Forall_cons in Hcalls as [Hev Hevs].
    destruct (IH (exec p ev) Hevs) as (Hcontacts & Hshoes & Hgear & Hstack).
    rewrite Hcontacts, Hshoes, Hgear, Hstack.
    destruct ev as [ | gear_body shoe shoeID pa pb vn mdist | sys ]; try discriminate;
      cbn [exec omap list_omap contact_of].
    + rewrite PerformCustomCollision_id. repeat split.
    + rewrite Found_GearPin_Contact_system, Found_GearPin_Contact_stack.
      cbn [AddContact contacts shoes gear]. rewrite <- app_assoc. repeat split.
Qed.

(** Two reports around a time step. *)
Lemma contacts_are_submitted_in_report_order_witness :
  contacts (system (run (E := example_externals) (example_program [seated_shoe])
                      [example_found 7; step; example_found 3]))
  = [ mkChCollisionInfo 1 2 ChVector_zero ChVector_zero ChVector_zero 0 (ptr_auto 0);
      mkChCollisionInfo 1 2 ChVector_zero ChVector_zero ChVector_zero 0 (ptr_auto 0) ].
Proof.
  destruct (contacts_are_submitted_in_report_order (E := example_externals)
              [example_found 7; step; example_found 3] (example_program [seated_shoe]))
    as [Hcontacts _].
  - repeat constructor.
  - exact Hcontacts.
Defined.

(** X8. In a run from construction the previous-step query never
    answers true: whatever was reported and wherever the shoes are, when
    it returns it returns false. *)
Theorem Get_contactPrevStep_never_reports_contact `{E : Externals}
    (sys : ChSystem) (geom : GearPinGeometry) (dim : Z) (p0 : Program)
    (evs : list event) (idx : nat) (flag : bool) :
  start sys geom dim = Some (Returns p0) ->
  Get_contactPrevStep (run p0 evs) idx = Returns flag ->
  flag = false.
Proof.
  intros Hstart. unfold Get_contactPrevStep.
  destruct (run_frame evs p0) as (_ & -> & _).
  destruct (start_inv _ _ _ _ Hstart) as (_ & _ & _ & _ & _ & -> & _).
  destruct (assert _); cbn; try discriminate.
  destruct (replicate _ false !! idx) as [stored|] eqn:Hstored; [ | discriminate ].
  apply lookup_replicate in Hstored as [-> _]. congruence.
Qed.

(** A shoe moved onto the gear, a contact reported for it and a step
    after that. *)
Lemma Get_contactPrevStep_never_reports_contact_witness :
  Get_contactPrevStep
    (run (E := example_externals) (example_program [far_shoe])
       [step; environment (example_system [seated_shoe]); step; example_found 0; step]) 0
  = Returns false.
Proof.
  assert (Hquery : exists flag, Get_contactPrevStep
            (run (E := example_externals) (example_program [far_shoe])
               [step; environment (example_system [seated_shoe]); step; example_found 0; step]) 0
            = Returns flag) by (eexists; reflexivity).
  destruct Hquery as [flag Hflag]. rewrite Hflag. f_equal.
  exact (Get_contactPrevStep_never_reports_contact (E := example_externals) _ _ _ _ _ _ _
           (example_start [far_shoe]) Hflag).
Defined.

Lemma wrap_int_range (v : Z) : (INT_MIN <= wrap_int v <= INT_MAX)%Z.
Proof.
  unfold wrap_int, INT_MIN, INT_MAX.
  pose proof (Z.mod_pos_bound (v + 2147483648) 4294967296 ltac:(lia)). lia.
Qed.

(** X9. After any run from construction the counter the count query
    returns lies between INT_MIN and INT_MAX and differs from the number
    of contacts reported by a multiple of 2^32. *)
Theorem Ncontacts_is_count_modulo_int `{E : Externals}
    (sys : ChSystem) (geom : GearPinGeometry) (dim : Z) (p0 : Program) (evs : list event) :
  start sys geom dim = Some (Returns p0) ->
  (INT_MIN <= GetNcontacts_GearPin (run p0 evs) <= INT_MAX)%Z
  /\ ((GetNcontacts_GearPin (run p0 evs) - count_found evs) mod 4294967296 = 0)%Z.
Proof.
  intros Hstart. rewrite (run_Ncontacts_start _ _ _ _ _ Hstart).
  split; [ apply wrap_int_range | ].
  unfold wrap_int.
  replace ((count_found evs + 2147483648) `mod` 4294967296 - 2147483648 - count_found evs)%Z
    with ((count_found evs + 2147483648) `mod` 4294967296 - (count_found evs + 2147483648))%Z
    by lia.
  rewrite Zminus_mod, Zmod_mod, <- Zminus_mod, Z.sub_diag. reflexivity.
Qed.

(** Two reports around a time step. *)
Lemma Ncontacts_is_count_modulo_int_witness :
  let n := GetNcontacts_GearPin
             (run (E := example_externals) (example_program [seated_shoe])
                [example_found 0; step; example_found 1]) in
  (INT_MIN <= n <= INT_MAX)%Z /\ ((n - 2) mod 4294967296 = 0)%Z.
Proof.
  apply (Ncontacts_is_count_modulo_int (E := example_externals) _ _ _ _
           [example_found 0; step; example_found 1] (example_start [seated_shoe])).
Defined.

(** ** Construction of the callback *)

(** X10. The outcomes of the constructor of the callback, for a tooth
    count that is a [size_t] value. The budget of the loop never ends
    it. Beyond the largest size of a vector of endpoints [resize] throws
    [std::length_error]; when the allocator refuses a vector of
    endpoints, the table or a tracker vector, [std::bad_alloc] is
    thrown; for more teeth than INT_MAX the [int] loop counter overflows
    and the behaviour is undefined; in every other case the constructor
    returns an object whose endpoint vectors have one element per tooth
    and whose tracker vectors have one element per shoe. *)
Theorem GearPinCollisionCallback_new_outcomes `{E : Externals}
    (sys : ChSystem) (geom : GearPinGeometry) (dim : Z) :
  (0 <= m_num_teeth geom < 18446744073709551616)%Z ->
  GearPinCollisionCallback_new sys geom dim <> None
  /\ ((ChVector_vector_max_size < m_num_teeth geom)%Z ->
        GearPinCollisionCallback_new sys geom dim = Some Throws_length_error)
  /\ ((m_num_teeth geom <= ChVector_vector_max_size)%Z ->
      seat_vectors_granted geom = false ->
      GearPinCollisionCallback_new sys geom dim = Some Throws_bad_alloc)
  /\ ((INT_MAX < m_num_teeth geom <= ChVector_vector_max_size)%Z ->
      seat_vectors_granted geom = true ->
      GearPinCollisionCallback_new sys geom dim = Some Undefined)
  /\ ((m_num_teeth geom <= INT_MAX)%Z ->
      seat_vectors_granted geom = true ->
      table_and_trackers_granted sys dim = false ->
      GearPinCollisionCallback_new sys geom dim = Some Throws_bad_alloc)
  /\ ((m_num_teeth geom <= INT_MAX)%Z ->
      seat_vectors_granted geom = true ->
      table_and_trackers_granted sys dim = true ->
      exists cb, GearPinCollisionCallback_new sys geom dim = Some (Returns cb)
                 /\ length (m_seat1_bar cb) = Z.to_nat (m_num_teeth geom)
                 /\ length (m_seat2_bar cb) = Z.to_nat (m_num_teeth geom)
                 /\ length (m_contactPrevStep cb) = length (shoes sys)
                 /\ length (m_persistentContactSteps cb) = length (shoes sys)).
Proof.
  intros Hsize.
  assert (Hconv : to_size_t (m_num_teeth geom) = m_num_teeth geom)
    by (apply to_size_t_small, Hsize).
  assert (Hnone : GearPinCollisionCallback_new sys geom dim <> None).
  { pose proof (start_not_None sys geom dim) as Hstart. unfold start in Hstart.
    destruct (GearPinCollisionCallback_new sys geom dim); [ discriminate | ].
    exfalso. apply Hstart. reflexivity. }
  split; [ exact Hnone | ].
  unfold seat_vectors_granted, table_and_trackers_granted,
    GearPinCollisionCallback_new, ChVector_vector_resize, tracker_resize, new_ChHashTable.
  rewrite Hconv. cbn [length]. change (Z.of_nat 0) with 0%Z.
  split; [ | split; [ | split; [ | split ] ] ].
  - intros Hmax. destruct (Z.ltb_spec ChVector_vector_max_size (m_num_teeth geom));
      [ reflexivity | lia ].
  - intros Hmax Hrefused.
    destruct (Z.ltb_spec ChVector_vector_max_size (m_num_teeth geom)); [ lia | ].
    destruct (_ || operator_new (for_seat1_bar _)); [ | reflexivity ].
    destruct (_ || operator_new (for_seat2_bar _)); [ discriminate | reflexivity ].
  - intros [Hint Hmax] [-> ->]%andb_true_iff.
    destruct (Z.ltb_spec ChVector_vector_max_size (m_num_teeth geom)); [ lia | ].
    cbn [and_then]. rewrite seat_loop_overflows by exact Hint. reflexivity.
  - intros Hint [-> ->]%andb_true_iff Hrefused.
    destruct (Z.ltb_spec ChVector_vector_max_size (m_num_teeth geom)) as [Hmax|_].
    { unfold ChVector_vector_max_size, INT_MAX in *. lia. }
    cbn [and_then].
    destruct (seat_loop_returns geom
                (resize (Z.to_nat (m_num_teeth geom)) ChVector_zero [])
                (resize (Z.to_nat (m_num_teeth geom)) ChVector_zero []) Hint)
      as (seat1' & seat2' & -> & _).
    cbn. destruct (operator_new (for_hashed_contacts dim)); [ | reflexivity ].
    destruct (_ || operator_new (for_persistentContactSteps _)); [ | reflexivity ].
    destruct (_ || operator_new (for_contactPrevStep _)); [ discriminate | reflexivity ].
  - intros Hint [-> ->]%andb_true_iff [[-> ->]%andb_true_iff ->]%andb_true_iff.
    destruct (Z.ltb_spec ChVector_vector_max_size (m_num_teeth geom)) as [Hmax|_].
    { unfold ChVector_vector_max_size, INT_MAX in *. lia. }
    cbn [and_then].
    destruct (seat_loop_returns geom
                (resize (Z.to_nat (m_num_teeth geom)) ChVector_zero [])
                (resize (Z.to_nat (m_num_teeth geom)) ChVector_zero []) Hint)
      as (seat1' & seat2' & -> & _ & _ & Hlen1 & Hlen2).
    eexists. split; [ reflexivity | ]. cbn.
    rewrite Hlen1, Hlen2, !length_resize. repeat split.
Qed.

(** X11. Empty inputs: for a gear of no teeth the constructor leaves the
    two endpoint vectors empty; for a system of no shoes it leaves the
    two tracker vectors empty, and as long as the system has no shoes the
    previous-step query fails its assertion at every index. *)
Theorem construction_on_empty_inputs `{E : Externals}
    (sys : ChSystem) (geom : GearPinGeometry) (dim : Z) (p0 : Program) :
  start sys geom dim = Some (Returns p0) ->
  (m_num_teeth geom = 0%Z -> m_seat1_bar (this p0) = [] /\ m_seat2_bar (this p0) = [])
  /\ (shoes sys = [] ->
        m_contactPrevStep (this p0) = [] /\ m_persistentContactSteps (this p0) = []
        /\ forall evs idx,
             Forall (keeps_shoe_count 0) evs ->
             Get_contactPrevStep (run p0 evs) idx = AssertionFailed).
Proof.
  intros Hstart. split.
  - intros Hzero. destruct (start_seats _ _ _ _ Hstart) as (_ & Hlen1 & Hlen2 & _).
    rewrite Hzero in Hlen1, Hlen2.
    split; apply length_zero_iff_nil; assumption.
  - intros Hnone.
    destruct (start_inv _ _ _ _ Hstart) as (Hsys & _ & _ & _ & _ & Hflags & Hcounts & _).
    rewrite Hnone in Hflags, Hcounts. split; [ exact Hflags | ]. split; [ exact Hcounts | ].
    intros evs idx Hkeep. unfold Get_contactPrevStep.
    rewrite (run_shoes 0 evs p0 Hkeep) by (rewrite Hsys, Hnone; reflexivity).
    reflexivity.
Qed.

(** No shoes, two steps, index 0. *)
Lemma construction_on_empty_inputs_witness :
  Get_contactPrevStep (run (E := example_externals) (example_program []) [step; step]) 0
  = AssertionFailed.
Proof.
  destruct (construction_on_empty_inputs (E := example_externals) (example_system [])
              default_geometry 1000 (example_program []) (example_start [])) as [_ Hnone].
  destruct (Hnone eq_refl) as (_ & _ & Hquery).
  apply Hquery. repeat constructor.
Defined.

Lemma start_pins `{E : Externals} (sys : ChSystem) (geom : GearPinGeometry) (dim : Z)
    (p0 : Program) :
  start sys geom dim = Some (Returns p0) ->
  m_p1_bar (this p0)
  = mkChVector (m_pin_x_offset geom) (m_pin_y_offset geom) (m_pin_width_min geom / 2.0)
  /\ m_p2_bar (this p0)
     = mkChVector (m_pin_x_offset geom) (m_pin_y_offset geom) (m_pin_width_max geom / 2.0)
  /\ m_persistent_hashtable_dim (this p0) = to_size_t dim.
Proof.
  unfold start, GearPinCollisionCallback_new, ChVector_vector_resize, tracker_resize,
    new_ChHashTable.
  destruct (ChVector_vector_max_size <? to_size_t (m_num_teeth geom))%Z; [ discriminate | ].
  destruct (_ || operator_new (for_seat1_bar _)); [ | discriminate ].
  destruct (_ || operator_new (for_seat2_bar _)); [ | discriminate ].
  cbn [and_then].
  destruct (seat_loop geom _ 0 _ _) as [[[seat1 seat2]| | | |]|]; try discriminate.
  destruct (operator_new (for_hashed_contacts dim)); [ | discriminate ].
  destruct (_ || operator_new (for_persistentContactSteps _)); [ | discriminate ].
  destruct (_ || operator_new (for_contactPrevStep _)); [ | discriminate ].
  cbn. intros Hp0. injection Hp0 as <-. cbn. repeat split.
Qed.

(** X12. The constructor puts the two pin endpoints at the pin offset of
    the shoe frame, [(pin_x_offset, pin_y_offset)], at the heights
    [pin_width_min / 2] and [pin_width_max / 2], and keeps the geometry it
    was given; no event changes any of the three. *)
Theorem pin_endpoints_share_the_pin_offset `{E : Externals}
    (sys : ChSystem) (geom : GearPinGeometry) (dim : Z) (p0 : Program) (evs : list event) :
  start sys geom dim = Some (Returns p0) ->
  let p := run p0 evs in
  m_p1_bar (this p)
  = mkChVector (m_pin_x_offset geom) (m_pin_y_offset geom) (m_pin_width_min geom / 2.0)
  /\ m_p2_bar (this p)
     = mkChVector (m_pin_x_offset geom) (m_pin_y_offset geom) (m_pin_width_max geom / 2.0)
  /\ m_geom (this p) = geom.
Proof.
  intros Hstart p.
  destruct (run_frame evs p0) as (_ & _ & _ & _ & H1 & H2 & Hgeom). fold p in H1, H2, Hgeom.
  destruct (start_pins _ _ _ _ Hstart) as (Hp1 & Hp2 & _).
  destruct (start_inv _ _ _ _ Hstart) as (_ & _ & Hg & _).
  rewrite H1, H2, Hgeom. auto.
Qed.

(** The pin of the default geometry after a step and a contact report. *)
Lemma pin_endpoints_share_the_pin_offset_witness :
  let p := run (E := example_externals) (example_program [seated_shoe])
             [step; example_found 0] in
  m_p1_bar (this p) = mkChVector (-0.07581) 0 (0.38 / 2.0)
  /\ m_p2_bar (this p) = mkChVector (-0.07581) 0 (0.531 / 2.0)
  /\ m_geom (this p) = default_geometry.
Proof.
  apply (pin_endpoints_share_the_pin_offset (E := example_externals) _ _ _ _
           [step; example_found 0] (example_start [seated_shoe])).
Defined.

(** ** A contact report for a shoe that has a record *)

(** X13. A contact report for a shoe whose identifier has a record leaves
    the table as it is, the record with the values it holds, and the
    copy the contact is submitted with holds those values. *)
Theorem report_keeps_existing_record
    (gear_body shoe : ChBody) (shoeID : Z) (pa pb vn : ChVector) (mdist : float)
    (p : Program) (record : GearPinCacheContact) :
  hashed_contacts (this p) !! shoeID = Some record ->
  let p' := Found_GearPin_Contact gear_body shoe shoeID pa pb vn mdist p in
  hashed_contacts (this p') = hashed_contacts (this p)
  /\ reactions_at_AddContact shoeID p = reactions_cache record
  /\ load p' (ptr_entry shoeID) = Some (reactions_cache record).
Proof.
  intros Hfound p'. unfold p', load, reactions_at_AddContact.
  rewrite Found_GearPin_Contact_this. cbn [hashed_contacts set_Ncontacts set_hashed_contacts this].
  rewrite (get_or_create_found _ _ _ Hfound). cbn. rewrite Hfound. repeat split.
Qed.

(** A record of 1, ..., 6 under the identifier 0. *)
Lemma report_keeps_existing_record_witness :
  let record := mkGearPinCacheContact [1; 2; 3; 4; 5; 6]%float in
  let p' := Found_GearPin_Contact gear_at_origin seated_shoe 0
              ChVector_zero ChVector_zero ChVector_zero 0 (program_with_record record) in
  hashed_contacts (this p') = {[ 0%Z := record ]}
  /\ reactions_at_AddContact 0 (program_with_record record) = [1; 2; 3; 4; 5; 6]%float
  /\ load p' (ptr_entry 0) = Some [1; 2; 3; 4; 5; 6]%float.
Proof.
  intros record p'.
  exact (report_keeps_existing_record gear_at_origin seated_shoe 0
           ChVector_zero ChVector_zero ChVector_zero 0
           (program_with_record record) record (lookup_singleton_eq 0%Z record)).
Defined.

(** The default geometry and one shoe: ten seats, one flag. *)
Lemma GearPinCollisionCallback_new_outcomes_witness :
  exists cb,
    GearPinCollisionCallback_new (E := example_externals) (example_system [seated_shoe])
      default_geometry 1000 = Some (Returns cb)
    /\ length (m_seat1_bar cb) = 10 /\ length (m_seat2_bar cb) = 10
    /\ length (m_contactPrevStep cb) = 1 /\ length (m_persistentContactSteps cb) = 1.
Proof.
  destruct (GearPinCollisionCallback_new_outcomes (E := example_externals)
              (example_system [seated_shoe]) default_geometry 1000)
    as (_ & _ & _ & _ & _ & Hreturns).
  - vm_compute. split; [ discriminate | reflexivity ].
  - apply Hreturns; vm_compute; try reflexivity. discriminate.
Defined.
